(** * PurchaseProcessor: a shallow embedding of
      [src/resources/purchase/processor.ts]

    The processor is a class of asynchronous methods over a Knex
    connection (tables [Purchases] and [Tickets]), the system clock and
    the MercadoPago gateway.  Every [await] is sequential, so a method is
    modelled as a computation in a state-and-exception monad over a
    [World]: the database contents plus the number of clock readings
    taken so far.  A thrown exception keeps the writes made before it
    (the source opens no transaction).  Queries themselves are taken to
    succeed: a lost connection is outside the model. *)

From Stdlib Require Import ZArith QArith Qabs Qpower List String Ascii Lia.
From Stdlib Require Import DecimalString.
From Stdlib Require Import Floats.SpecFloat.
From stdpp Require Import gmap strings list.

Local Open Scope string_scope.
Local Open Scope Z_scope.

(** ** JavaScript numbers

    Prices go through [Number(record.price)] and are added with [+]:
    IEEE-754 binary64 values and round-to-nearest-even addition, which is
    what [SpecFloat] specifies for [prec = 53] and [emax = 1024]. *)
Module JsNumber.

Definition number : Type := spec_float.

Definition prec : Z := 53.
Definition emax : Z := 1024.

(** [a + b] on numbers. *)
Definition add (a b : number) : number := SFadd prec emax a b.

(** The literal [0]. *)
Definition zero : number := S754_zero false.

(** The number an integer literal or an integral column value denotes
    (rounded when it has more than 53 significant bits). *)
Definition of_Z (z : Z) : number := binary_normalize prec emax z 0 false.

(** The rational a finite number denotes exactly. *)
Definition value (x : number) : option Q :=
  match x with
  | S754_zero _ => Some 0%Q
  | S754_finite s m e =>
      Some (inject_Z (cond_Zopp s (Zpos m)) * Qpower 2 e)%Q
  | S754_infinity _ | S754_nan => None
  end.

(** The decimal literals [0.1], [0.2] and [0.3], as the nearest
    doubles. *)
Definition lit_0_1 : number := S754_finite false 7205759403792794 (-56).
Definition lit_0_2 : number := S754_finite false 7205759403792794 (-55).
Definition lit_0_3 : number := S754_finite false 5404319552844595 (-54).

(** The double of a positive integer below [2 ^ 53], in normal form: the
mantissa shifted up to 53 bits. *)
Definition canon (s : bool) (z : Z) : number :=
  let d := Z.log2 z + 1 in
  S754_finite s (Z.to_pos (z * 2 ^ (53 - d))) (d - 53).

(** The sum of a list of numbers in exact rational arithmetic, when all
are finite. *)
Definition exact_sum (xs : list number) : option Q :=
  foldr (fun x acc =>
           match value x, acc with
           | Some v, Some a => Some (v + a)%Q
           | _, _ => None
           end)
    (Some 0%Q) xs.

(** [total] is exactly the sum of [xs]. *)
Definition is_exact_sum (total : number) (xs : list number) : bool :=
  match value total, exact_sum xs with
  | Some t, Some e => Qeq_bool t e
  | _, _ => false
  end.

(** The sum of a list of integers. *)
Definition sum_Z (zs : list Z) : Z := foldr Z.add 0 zs.

(** [x] is a finite double within half a unit in the last place of the
rational [q]: the double a decimal literal for [q] denotes. *)
Definition nearest (x : number) (q : Q) : bool :=
  match x with
  | S754_finite s m e =>
      valid_binary prec emax x
      && Qle_bool (Qabs (inject_Z (cond_Zopp s (Zpos m)) * Qpower 2 e - q))
           (Qpower 2 (e - 1))
  | _ => false
  end.

End JsNumber.

Abbreviation number := JsNumber.number.

(** ** Rows of the two tables the processor touches *)

(** Identifiers travel as strings ([id: string], JSON:API). *)
Definition Id : Type := string.

Inductive PurchaseStatus := unpaid | paid.
Inductive TicketStatus := available | booked.

#[global] Instance PurchaseStatus_eq_dec : EqDecision PurchaseStatus.
Proof. solve_decision. Defined.
#[global] Instance TicketStatus_eq_dec : EqDecision TicketStatus.
Proof. solve_decision. Defined.

Record PurchaseRow := mkPurchase {
  purchase_id : Id;
  dateCreated : string;
  status : PurchaseStatus;
  amountBilled : number;
  externalId : string
}.

Record TicketRow := mkTicket {
  ticket_id : Id;
  price : number;
  ticketTypeId : Z;
  ticket_status : TicketStatus;
  purchaseId : option Id
}.

(** A table is the sequence of its rows, in storage order. *)
Record Database := mkDatabase {
  Purchases : list PurchaseRow;
  Tickets : list TicketRow
}.

Record World := mkWorld {
  db : Database;
  clock_reads : nat
}.

(** ** Exceptions and the monad of asynchronous methods *)

Inductive Error :=
| AccessDenied          (* JsonApiErrors.AccessDenied() *)
| TypeError             (* property read on undefined *)
| GatewayError          (* MercadoPago.preferences.create rejected *)
| NotFound              (* JsonApiErrors.NotFound(): thrown nowhere here *)
| Conflict.             (* named by the specification: thrown nowhere here *)

Inductive Result (A : Type) :=
| Ok (a : A)
| Throw (e : Error).
Arguments Ok {A} a.
Arguments Throw {A} e.

Definition M (A : Type) : Type := World -> Result A * World.

#[global] Instance M_ret : MRet M := fun A a w => (Ok a, w).
#[global] Instance M_bind : MBind M := fun A B f m w =>
  match m w with
  | (Ok a, w') => f a w'
  | (Throw e, w') => (Throw e, w')
  end.

Definition throw {A} (e : Error) : M A := fun w => (Throw e, w).
Definition get_db : M Database := fun w => (Ok (db w), w).
Definition put_db (d : Database) : M unit :=
  fun w => (Ok tt, mkWorld d (clock_reads w)).

(** The value a computation returns and the world it leaves. *)
Definition outcome {A} (r : Result A * World) : Result A := fst r.
Definition world_after {A} (r : Result A * World) : World := snd r.

(** ** Strings: the few [String.prototype] methods the source calls *)
Module JsString.

(** [s.split(sep)] for a one-character separator: never the empty
    array, [""] splits into [[""]]. *)
Fixpoint split (sep : ascii) (s : string) : list string :=
  match s with
  | EmptyString => [EmptyString]
  | String c rest =>
      if Ascii.eqb c sep then EmptyString :: split sep rest
      else match split sep rest with
           | piece :: pieces => String c piece :: pieces
           | [] => [String c EmptyString]
           end
  end.

(** [xs.join(sep)]. *)
Definition join (sep : string) (xs : list string) : string :=
  String.concat sep xs.

(** [s.substr(from, len)]. *)
Definition substr (from len : nat) (s : string) : string :=
  String.substring from len s.

(** How a template literal prints a possibly undefined string. *)
Definition template (o : option string) : string :=
  default "undefined" o.

(** Truthiness of a possibly undefined string. *)
Definition truthy (o : option string) : bool :=
  match o with
  | Some (String _ _) => true
  | _ => false
  end.

(** How a template literal prints a count. *)
Definition of_N (n : N) : string :=
  NilEmpty.string_of_uint (N.to_uint n).

(** [s.includes(c)] for one character. *)
Fixpoint includes (c : ascii) (s : string) : bool :=
  match s with
  | EmptyString => false
  | String a rest => Ascii.eqb a c || includes c rest
  end.


End JsString.

(** ** Dates: [Date.prototype.toJSON] on a time value in milliseconds *)
Module JsDate.

Definition msPerDay : Z := 86400000.

Definition digit (n : Z) : ascii := ascii_of_nat (48 + Z.to_nat (n mod 10)).

Definition pad2 (n : Z) : string :=
  String (digit (n / 10)) (String (digit n) EmptyString).
Definition pad3 (n : Z) : string := String (digit (n / 100)) (pad2 n).
Definition pad4 (n : Z) : string := String (digit (n / 1000)) (pad3 n).
Definition pad6 (n : Z) : string :=
  String (digit (n / 100000)) (String (digit (n / 10000)) (pad4 n)).

(** Year, month and day of a day number counted from 1970-01-01, in
    the proleptic Gregorian calendar. *)
Definition civil (days : Z) : Z * Z * Z :=
  let z := days + 719468 in
  let era := z / 146097 in
  let doe := z - era * 146097 in
  let yoe := (doe - doe / 1460 + doe / 36524 - doe / 146096) / 365 in
  let doy := doe - (365 * yoe + yoe / 4 - yoe / 100) in
  let mp := (5 * doy + 2) / 153 in
  let d := doy - (153 * mp + 2) / 5 + 1 in
  let m := if mp <? 10 then mp + 3 else mp - 9 in
  let y := yoe + era * 400 + (if m <=? 2 then 1 else 0) in
  (y, m, d).

(** Four digits for the years 0 to 9999, a sign and six digits
    otherwise. *)
Definition year_string (y : Z) : string :=
  if (0 <=? y) && (y <=? 9999) then pad4 y
  else String (if y <? 0 then "-"%char else "+"%char) (pad6 (Z.abs y)).

Definition toJSON (t : Z) : string :=
  let ms := t mod msPerDay in
  let '(y, m, d) := civil (t / msPerDay) in
  year_string y ++ "-" ++ pad2 m ++ "-" ++ pad2 d ++ "T"
    ++ pad2 (ms / 3600000) ++ ":" ++ pad2 (ms / 60000 mod 60) ++ ":"
    ++ pad2 (ms / 1000 mod 60) ++ "." ++ pad3 (ms mod 1000) ++ "Z".

End JsDate.

(** ** The environment and the gateway request *)

(** The variables of [process.env] the processor reads; each may be
    undefined. *)
Record Env := mkEnv {
  WEBCONF_CHECKOUT_URL : option string;
  MP_BACK_URL_SUCCESS : option string;
  MP_BACK_URL_PENDING : option string;
  MP_BACK_URL_FAILURE : option string;
  USE_FAKE_PAYMENTS : option string;
  MP_TICKET_PICTURE_URL : option string;
  MP_EXCLUDED_PAYMENT_TYPES : option string
}.

(** One element of [items]; [quantity] is undefined when the quantity map
    has no entry for the ticket's type. *)
Record Item := mkItem {
  item_id : string;
  title : string;
  quantity : option N;
  currency_id : string;
  unit_price : number;
  picture_url : option string;
  category_id : string
}.

Record BackUrls := mkBackUrls {
  success : string;
  failure : string;
  pending : string
}.

Record PreferenceConfiguration := mkPreferenceConfiguration {
  items : list Item;
  excluded_payment_types : list string;
  back_urls : BackUrls;
  auto_return : string;
  external_reference : string;
  expires : bool;
  expiration_date_from : string;
  expiration_date_to : string
}.

(** The [response] of a successful [MercadoPago.preferences.create]. *)
Record Preference := mkPreference {
  preference_id : string
}.

(** The attributes [add] assigns, which are the columns of a purchase
    row other than its id. *)
Record PurchaseAttributes := mkAttributes {
  attr_dateCreated : string;
  attr_status : PurchaseStatus;
  attr_amountBilled : number;
  attr_externalId : string
}.

(** The JSON:API resource [asResource] builds. *)
Record Purchase := mkResource {
  id : Id;
  type : string;
  attributes : PurchaseAttributes;
  relationships : list (string * list Id)
}.

Definition row_of (i : Id) (a : PurchaseAttributes) : PurchaseRow :=
  mkPurchase i (attr_dateCreated a) (attr_status a) (attr_amountBilled a)
    (attr_externalId a).

(** [{ ...purchaseObject }] followed by [delete purchase.id]. *)
Definition without_id (r : PurchaseRow) : PurchaseAttributes :=
  mkAttributes (dateCreated r) (status r) (amountBilled r) (externalId r).

(** ** Sample data

A shop in the state of 2019-11-02T00:00:00Z, with a clock that advances
one millisecond per reading, a gateway that accepts (or rejects) every
request, and storage ids [P1], [P2], ... *)
Module Fixture.

Definition env : Env :=
  {| WEBCONF_CHECKOUT_URL := Some "https://checkout.webconf.tech";
     MP_BACK_URL_SUCCESS := Some "success";
     MP_BACK_URL_PENDING := Some "pending";
     MP_BACK_URL_FAILURE := Some "failure";
     USE_FAKE_PAYMENTS := None;
     MP_TICKET_PICTURE_URL := Some "https://webconf.tech/ticket.png";
     MP_EXCLUDED_PAYMENT_TYPES := Some "ticket,atm" |}.

Definition clock (reading : nat) : Z := 1572652800000 + Z.of_nat reading.

Definition accepting (_ : PreferenceConfiguration) : option Preference :=
  Some {| preference_id := "pref-1" |}.

Definition rejecting (_ : PreferenceConfiguration) : option Preference :=
  None.

Definition next_id (rows : list PurchaseRow) : Id :=
  "P" ++ JsString.of_N (N.of_nat (length rows) + 1).

Definition ticket_A : TicketRow :=
  mkTicket "A" (JsNumber.of_Z 100) 1 available None.
Definition ticket_B : TicketRow :=
  mkTicket "B" (JsNumber.of_Z 100) 1 available None.
Definition ticket_C : TicketRow :=
  mkTicket "C" (JsNumber.of_Z 150) 2 available None.
Definition ticket_D : TicketRow :=
  mkTicket "D" (JsNumber.of_Z 100) 1 booked (Some "P1").

(** Two tickets priced 0.1 and 0.2. *)
Definition ticket_E : TicketRow :=
  mkTicket "E" JsNumber.lit_0_1 1 available None.
Definition ticket_F : TicketRow :=
  mkTicket "F" JsNumber.lit_0_2 1 available None.

Definition order_P1 : PurchaseRow :=
  mkPurchase "P1" "2019-11-01T12:00:00.000Z" paid (JsNumber.of_Z 100) "pref-0".

(** One paid order, holding ticket D; tickets A, B and C are free. *)
Definition shop : World :=
  mkWorld (mkDatabase [order_P1] [ticket_A; ticket_B; ticket_C; ticket_D]) 0.

(** No order yet; two cheap tickets. *)
Definition kiosk : World :=
  mkWorld (mkDatabase [] [ticket_E; ticket_F]) 0.

End Fixture.

(** ** The processor *)

(** [{ [type]: (accumulator[type] || 0) + 1 }]: the reducer of
    [quantitiesByType].  Object keys are the type ids; a count is at most
    an array length, where [+ 1] on numbers is exact, so counts are
    in [N]. *)
Definition count_type (accumulator : gmap Z N) (type : Z) : gmap Z N :=
  {[ type := (default 0 (accumulator !! type) + 1)%N ]}.

(** [Number(v)] on a value that is a number already. *)
Definition Number (v : number) : number := v.

(** The inline [titles] object, read at a possibly undefined key. *)
Definition titles (key : option N) : option string :=
  match key with
  | Some 1%N => Some "Entrada"
  | Some 2%N => Some "Par de Entradas"
  | Some 3%N => Some "Trío de Entradas"
  | _ => None
  end.

Definition set_paid (r : PurchaseRow) : PurchaseRow :=
  mkPurchase (purchase_id r) (dateCreated r) paid (amountBilled r)
    (externalId r).

Definition set_booked (purchase : Id) (t : TicketRow) : TicketRow :=
  mkTicket (ticket_id t) (price t) (ticketTypeId t) booked (Some purchase).

Section Processor.

(** [process.env]. *)
Variable process_env : Env.
(** The system clock: its successive readings, in milliseconds. *)
Variable clock : nat -> Z.
(** [MercadoPago.preferences.create]: the response, or [None] when the
    call rejects. *)
Variable gateway : PreferenceConfiguration -> option Preference.
(** The id the storage generates for a row inserted into a table. *)
Variable generated_id : list PurchaseRow -> Id.

(** [Date.now()] and [new Date()]: the next reading of the clock. *)
Definition Date_now : M Z :=
  fun w => (Ok (clock (clock_reads w)), mkWorld (db w) (S (clock_reads w))).

(** *** Knex queries *)

(** [knex("Tickets").select().where("id", "in", ids)] *)
Definition select_Tickets_where_id_in (ids : list Id) : M (list TicketRow) :=
  d ← get_db;
  mret (filter (λ r, ticket_id r ∈ ids) (Tickets d)).

(** [knex("Tickets").update({purchaseId, status: "booked"})
      .where("id", "in", ids)] *)
Definition update_Tickets_where_id_in (purchase : Id) (ids : list Id)
  : M unit :=
  d ← get_db;
  put_db (mkDatabase (Purchases d)
            ((λ r, if decide (ticket_id r ∈ ids)
                   then set_booked purchase r else r) <$> Tickets d)).

(** [knex("Purchases").where({ id }).first()] *)
Definition first_Purchases_where_id (i : Id) : M (option PurchaseRow) :=
  d ← get_db;
  mret (head (filter (λ r, purchase_id r = i) (Purchases d))).

(** [knex("Purchases").where({ id }).update({ status: "paid" })] *)
Definition update_Purchases_where_id (i : Id) : M unit :=
  d ← get_db;
  put_db (mkDatabase
            ((λ r, if decide (purchase_id r = i) then set_paid r else r)
               <$> Purchases d)
            (Tickets d)).

(** [knex("Purchases").where({ id }).delete()] *)
Definition delete_Purchases_where_id (i : Id) : M unit :=
  d ← get_db;
  put_db (mkDatabase (filter (λ r, purchase_id r ≠ i) (Purchases d))
            (Tickets d)).

(** Modelled from the spec: the inherited [KnexProcessor.add], whose code
    is not in the sources.  Section 4.4, step 3: "Insert the order row",
    with an id "generated by storage on insert" (section 3); the row is
    what [add] goes on to use as [purchase]. *)
Definition super_add (a : PurchaseAttributes) : M PurchaseRow :=
  d ← get_db;
  let row := row_of (generated_id (Purchases d)) a in
  put_db (mkDatabase (Purchases d ++ [row]) (Tickets d));;
  mret row.

(** *** Methods *)

Definition totalPrice_of (ticketRecords : list TicketRow) : number :=
  fold_left (λ priceSum price, JsNumber.add priceSum price)
    ((λ record, Number (price record)) <$> ticketRecords)
    JsNumber.zero.

Definition quantitiesByType_of (ticketRecords : list TicketRow)
  : gmap Z N :=
  fold_left count_type ((λ record, ticketTypeId record) <$> ticketRecords) ∅.

Definition getTickets (tickets : list Id)
  : M (number * list TicketRow * gmap Z N) :=
  ticketRecords ← select_Tickets_where_id_in tickets;
  let totalPrice := totalPrice_of ticketRecords in
  let quantitiesByType := quantitiesByType_of ticketRecords in
  mret (totalPrice, ticketRecords, quantitiesByType).

Definition line_item (quantitiesByType : gmap Z N) (ticket : TicketRow)
  : Item :=
  let quantity := quantitiesByType !! ticketTypeId ticket in
  {| item_id :=
       "WEBCONF-TICKET-" ++ from_option JsString.of_N "undefined" quantity;
     title :=
       JsString.template (titles quantity) ++ " para Córdoba WebConf 2019";
     quantity := quantity;
     currency_id := "ARS";
     unit_price :=
       if JsString.truthy (USE_FAKE_PAYMENTS process_env)
       then JsNumber.of_Z 2 else Number (price ticket);
     picture_url := MP_TICKET_PICTURE_URL process_env;
     category_id := "tickets" |}.

Definition back_url (suffix : option string) : string :=
  JsString.template (WEBCONF_CHECKOUT_URL process_env) ++ "/"
    ++ JsString.template suffix.

Definition expiration (t : Z) : string :=
  JsString.substr 0 23 (JsDate.toJSON t) ++ "-03:00".

Definition TOMORROW_of (now : Z) : Z := now + 60 * 60 * 60 * 24 * 1000.

Definition preferenceConfiguration_of (tickets : list TicketRow)
    (quantitiesByType : gmap Z N) (TOMORROW today : Z)
  : PreferenceConfiguration :=
  {| items := line_item quantitiesByType <$> tickets;
     excluded_payment_types :=
       JsString.split "," (default "" (MP_EXCLUDED_PAYMENT_TYPES process_env));
     back_urls :=
       {| success := back_url (MP_BACK_URL_SUCCESS process_env);
          failure := back_url (MP_BACK_URL_FAILURE process_env);
          pending := back_url (MP_BACK_URL_PENDING process_env) |};
     auto_return := "approved";
     external_reference := JsString.join "|" ((λ ticket, ticket_id ticket) <$> tickets);
     expires := true;
     expiration_date_from := expiration today;
     expiration_date_to := expiration TOMORROW |}.

Definition postPreference (tickets : list TicketRow)
    (quantitiesByType : gmap Z N) : M Preference :=
  now ← Date_now;
  let TOMORROW := TOMORROW_of now in
  today ← Date_now;
  let preferenceConfiguration :=
    preferenceConfiguration_of tickets quantitiesByType TOMORROW today in
  match gateway preferenceConfiguration with
  | Some preference => mret preference
  | None => throw GatewayError
  end.

Definition bindTicketsToPurchase (tickets : list TicketRow)
    (purchase : PurchaseRow) : M unit :=
  update_Tickets_where_id_in (purchase_id purchase)
    ((λ ticket, ticket_id ticket) <$> tickets).

Definition add (ticket_ids : list Id) : M PurchaseRow :=
  '(totalPrice, tickets, quantitiesByType) ← getTickets ticket_ids;
  preference ← postPreference tickets quantitiesByType;
  created ← Date_now;
  purchase ← super_add
    {| attr_dateCreated := JsDate.toJSON created;
       attr_status := unpaid;
       attr_amountBilled := totalPrice;
       attr_externalId := preference_id preference |};
  bindTicketsToPurchase tickets purchase;;
  mret purchase.

Definition removeById (i : Id) : M unit :=
  delete_Purchases_where_id i.

Definition asResource (purchaseObject : option PurchaseRow) : M Purchase :=
  match purchaseObject with
  | None => throw TypeError
  | Some row =>
      mret {| id := purchase_id row;
              type := "purchase";
              attributes := without_id row;
              relationships := [] |}
  end.

Definition getById (i : Id) : M Purchase :=
  purchase ← first_Purchases_where_id i;
  asResource purchase.

Definition markAsPaid (i : Id) : M unit :=
  update_Purchases_where_id i.

Definition delete : M unit := throw AccessDenied.

(** *** The public operations, as one step function on worlds *)

Inductive Operation :=
| OpAdd (ticket_ids : list Id)
| OpRemoveById (i : Id)
| OpGetById (i : Id)
| OpMarkAsPaid (i : Id)
| OpDelete.

Definition perform (op : Operation) (w : World) : World :=
  match op with
  | OpAdd ticket_ids => world_after (add ticket_ids w)
  | OpRemoveById i => world_after (removeById i w)
  | OpGetById i => world_after (getById i w)
  | OpMarkAsPaid i => world_after (markAsPaid i w)
  | OpDelete => world_after (delete w)
  end.

(** The ticket records a request resolves to, and the request [add]
    submits to the gateway for them in a given world. *)
Definition resolved (ticket_ids : list Id) (w : World) : list TicketRow :=
  filter (λ r, ticket_id r ∈ ticket_ids) (Tickets (db w)).

Definition submitted (ticket_ids : list Id) (w : World)
  : PreferenceConfiguration :=
  preferenceConfiguration_of (resolved ticket_ids w)
    (quantitiesByType_of (resolved ticket_ids w))
    (TOMORROW_of (clock (clock_reads w)))
    (clock (S (clock_reads w))).

(** The row [add] inserts for a request in a given world when the
    gateway answers with [preference]. *)
Definition inserted (ticket_ids : list Id) (w : World)
    (preference : Preference) : PurchaseRow :=
  row_of (generated_id (Purchases (db w)))
    {| attr_dateCreated := JsDate.toJSON (clock (S (S (clock_reads w))));
       attr_status := unpaid;
       attr_amountBilled := totalPrice_of (resolved ticket_ids w);
       attr_externalId := preference_id preference |}.

(** ** Properties *)

(** *** Facts about JavaScript numbers *)

(** The three literals are the doubles nearest to 0.1, 0.2 and 0.3. *)
Lemma decimal_literals :
  JsNumber.nearest JsNumber.lit_0_1 (1 # 10) = true
  /\ JsNumber.nearest JsNumber.lit_0_2 (2 # 10) = true
  /\ JsNumber.nearest JsNumber.lit_0_3 (3 # 10) = true.
Proof. repeat split; vm_compute; reflexivity. Qed.

(** Addition of doubles is exact on non-negative integers as long as the
sum stays below [2 ^ 53].  The proof follows [binary_round]: a bit count
([digits2_pos]), an alignment to the left ([shl_align]) or an exact shift
to the right ([shr]), and no rounding in either case. *)

Lemma digits2_log2 (m : positive) :
  Zpos (digits2_pos m) = Z.log2 (Zpos m) + 1.
Proof.
  assert (E : digits2_pos m = Pos.size m) by (induction m; simpl; congruence).
  rewrite E. destruct m; simpl; lia.
Qed.

Lemma iter_xO_mul (p m : positive) :
  Zpos (Pos.iter xO m p) = Zpos m * 2 ^ Zpos p.
Proof.
  induction p as [|p IH] using Pos.peano_ind.
  - simpl. lia.
  - rewrite Pos.iter_succ, Pos2Z.inj_xO, IH, Pos2Z.inj_succ, Z.pow_succ_r by lia.
    lia.
Qed.

Lemma shr_1_double (z : Z) :
  0 < z ->
  shr_1 (Build_shr_record (2 * z) false false) = Build_shr_record z false false.
Proof. destruct z; [lia | reflexivity | lia]. Qed.

Lemma pow2_xO (p : positive) : 2 ^ Zpos p~0 = 2 ^ Zpos p * 2 ^ Zpos p.
Proof.
  change (Zpos p~0) with (2 * Zpos p).
  replace (2 * Zpos p) with (Zpos p + Zpos p) by lia.
  apply Z.pow_add_r; lia.
Qed.

Lemma pow2_xI (p : positive) :
  2 ^ Zpos p~1 = 2 * (2 ^ Zpos p * 2 ^ Zpos p).
Proof.
  change (Zpos p~1) with (2 * Zpos p + 1).
  replace (2 * Zpos p + 1) with (Z.succ (Zpos p + Zpos p)) by lia.
  rewrite Z.pow_succ_r, Z.pow_add_r by lia. reflexivity.
Qed.

Lemma iter_shr_1_exact (p : positive) :
  forall z : Z, 0 < z ->
  SpecFloat.iter_pos shr_1 p (Build_shr_record (z * 2 ^ Zpos p) false false)
  = Build_shr_record z false false.
Proof.
  induction p as [p IH|p IH|]; intros z Hz; cbn [SpecFloat.iter_pos].
  - replace (z * 2 ^ Z.pos p~1) with (2 * ((z * 2 ^ Zpos p) * 2 ^ Zpos p))
      by (rewrite pow2_xI; ring).
    rewrite shr_1_double by (apply Z.mul_pos_pos; lia).
    rewrite IH by lia. apply IH; exact Hz.
  - replace (z * 2 ^ Z.pos p~0) with ((z * 2 ^ Zpos p) * 2 ^ Zpos p)
      by (rewrite pow2_xO; ring).
    rewrite IH by lia. apply IH; exact Hz.
  - rewrite Z.pow_1_r, Z.mul_comm. apply shr_1_double; exact Hz.
Qed.

Lemma shr_fexp_keep (m : positive) (e : Z) :
  Zpos (digits2_pos m) = 53 -> -1074 <= e ->
  shr_fexp 53 1024 (Zpos m) e loc_Exact
  = (Build_shr_record (Zpos m) false false, e).
Proof.
  intros Hd He. unfold shr_fexp, Zdigits2, fexp, emin. rewrite Hd.
  replace (Z.max (53 + e - 53) (3 - 1024 - 53) - e) with 0 by lia.
  reflexivity.
Qed.

Lemma shr_fexp_exact (m : positive) (e n : Z) :
  Zpos (digits2_pos m) = 53 -> 0 < n -> -1074 <= e + n ->
  shr_fexp 53 1024 (Zpos m * 2 ^ n) e loc_Exact
  = (Build_shr_record (Zpos m) false false, e + n).
Proof.
  intros Hd Hn He. unfold shr_fexp, fexp, emin.
  assert (Hdig : Zdigits2 (Zpos m * 2 ^ n) = 53 + n).
  { assert (0 < 2 ^ n) by (apply Z.pow_pos_nonneg; lia).
    destruct (Zpos m * 2 ^ n) as [|q|q] eqn:E; try lia.
    cbn [Zdigits2]. rewrite digits2_log2, <- E, Z.log2_mul_pow2 by lia.
    rewrite digits2_log2 in Hd. lia. }
  rewrite Hdig.
  replace (Z.max (53 + n + e - 53) (3 - 1024 - 53) - e) with n by lia.
  destruct n as [|p|p]; try lia. cbn [shr shr_record_of_loc].
  rewrite iter_shr_1_exact by lia. reflexivity.
Qed.

Lemma binary_round_aux_canonical (s : bool) (m : positive) (e : Z) :
  Zpos (digits2_pos m) = 53 -> -1074 <= e <= 971 ->
  binary_round_aux 53 1024 s (Zpos m) e loc_Exact = S754_finite s m e.
Proof.
  intros Hd He. unfold binary_round_aux.
  rewrite shr_fexp_keep by (exact Hd || lia). cbn [shr_m loc_of_shr_record round_nearest_even].
  rewrite shr_fexp_keep by (exact Hd || lia). cbn [shr_m].
  replace (e <=? 1024 - 53) with true by (symmetry; apply Z.leb_le; lia).
  reflexivity.
Qed.

Lemma binary_round_aux_exact (s : bool) (m : positive) (e n : Z) :
  Zpos (digits2_pos m) = 53 -> 0 < n -> -1074 <= e + n <= 971 ->
  binary_round_aux 53 1024 s (Zpos m * 2 ^ n) e loc_Exact
  = S754_finite s m (e + n).
Proof.
  intros Hd Hn He. unfold binary_round_aux.
  rewrite shr_fexp_exact by (exact Hd || lia). cbn [shr_m loc_of_shr_record round_nearest_even].
  rewrite shr_fexp_keep by (exact Hd || lia). cbn [shr_m].
  replace (e + n <=? 1024 - 53) with true by (symmetry; apply Z.leb_le; lia).
  reflexivity.
Qed.

Lemma shl_align_value (m : positive) (e e' : Z) :
  e' <= e -> Zpos (fst (shl_align m e e')) = Zpos m * 2 ^ (e - e').
Proof.
  intros He. unfold shl_align.
  destruct (e' - e) as [|p|p] eqn:E; try lia; cbn [fst].
  - replace (e - e') with 0 by lia. lia.
  - rewrite iter_xO_mul. f_equal. f_equal. lia.
Qed.

Lemma canon_digits (z : Z) :
  0 < z < 2 ^ 53 ->
  Zpos (digits2_pos (Z.to_pos (z * 2 ^ (53 - (Z.log2 z + 1))))) = 53.
Proof.
  intros Hz.
  assert (Hl : Z.log2 z < 53) by (apply Z.log2_lt_pow2; lia).
  pose proof (Z.log2_nonneg z) as Hl0.
  assert (0 < 2 ^ (53 - (Z.log2 z + 1))) by (apply Z.pow_pos_nonneg; lia).
  rewrite digits2_log2, Z2Pos.id by (apply Z.mul_pos_pos; lia).
  rewrite Z.log2_mul_pow2 by lia. lia.
Qed.

(** Rounding [z * 2 ^ k] at exponent [- k] yields the canonical double of
    [z], whatever [k] is. *)
Lemma binary_normalize_scaled (z M k : Z) :
  0 < z < 2 ^ 53 -> 0 <= k -> M = z * 2 ^ k ->
  binary_normalize 53 1024 M (- k) false = JsNumber.canon false z.
Proof.
  intros Hz Hk HM.
  assert (Hl : Z.log2 z < 53) by (apply Z.log2_lt_pow2; lia).
  pose proof (Z.log2_nonneg z) as Hl0.
  assert (Hpk : 0 < 2 ^ k) by (apply Z.pow_pos_nonneg; lia).
  assert (HMpos : 0 < M) by (subst M; apply Z.mul_pos_pos; lia).
  destruct M as [|M|M]; try lia.
  unfold binary_normalize, binary_round, JsNumber.canon.
  set (d := Z.log2 z + 1).
  assert (Hd : Zpos (digits2_pos M) = d + k).
  { rewrite digits2_log2, HM, Z.log2_mul_pow2 by lia. unfold d; lia. }
  rewrite Hd. unfold fexp, emin.
  replace (Z.max (d + k + - k - 53) (3 - 1024 - 53)) with (d - 53)
    by (unfold d; lia).
  pose proof (canon_digits z Hz) as Hcd. fold d in Hcd.
  assert (Hpd : 0 < 2 ^ (53 - d)) by (apply Z.pow_pos_nonneg; unfold d; lia).
  assert (Hm' : Zpos (Z.to_pos (z * 2 ^ (53 - d))) = z * 2 ^ (53 - d))
    by (apply Z2Pos.id, Z.mul_pos_pos; lia).
  destruct (Z_le_gt_dec (d - 53) (- k)) as [Hle|Hgt].
  - (* the mantissa is shifted left, or kept *)
    destruct (shl_align M (- k) (d - 53)) as [mz ez] eqn:Hsh.
    assert (Hmz : Zpos mz = Zpos M * 2 ^ (- k - (d - 53))).
    { rewrite <- (shl_align_value M (- k) (d - 53)) by lia.
      rewrite Hsh; reflexivity. }
    assert (Hez : ez = d - 53).
    { unfold shl_align in Hsh.
      destruct (d - 53 - - k) as [|p|p] eqn:E; try lia;
        injection Hsh as _ <-; lia. }
    assert (Hmz' : mz = Z.to_pos (z * 2 ^ (53 - d))).
    { apply Pos2Z.inj. rewrite Hm', Hmz, HM, <- Z.mul_assoc, <- Z.pow_add_r by lia.
      f_equal. f_equal. lia. }
    subst ez. rewrite Hmz'.
    apply binary_round_aux_canonical; [exact Hcd | unfold d; lia].
  - (* the mantissa is shifted right by as many zero bits *)
    assert (Hsh : shl_align M (- k) (d - 53) = (M, - k)).
    { unfold shl_align. destruct (d - 53 - - k) as [|p|p] eqn:E; try lia;
        reflexivity. }
    rewrite Hsh.
    replace (Zpos M)
      with (Zpos (Z.to_pos (z * 2 ^ (53 - d))) * 2 ^ (d - 53 + k)).
    + rewrite binary_round_aux_exact by (exact Hcd || unfold d; lia).
      f_equal. lia.
    + rewrite Hm', HM, <- Z.mul_assoc, <- Z.pow_add_r by (unfold d; lia).
      f_equal. f_equal. lia.
Qed.

Lemma of_Z_canon (z : Z) :
  0 < z < 2 ^ 53 -> JsNumber.of_Z z = JsNumber.canon false z.
Proof.
  intros Hz. unfold JsNumber.of_Z, JsNumber.prec, JsNumber.emax.
  change 0 with (- 0) at 1.
  apply binary_normalize_scaled; [exact Hz | lia | lia].
Qed.

Lemma add_canon (a b : Z) :
  0 < a -> 0 < b -> a + b < 2 ^ 53 ->
  SFadd 53 1024 (JsNumber.canon false a) (JsNumber.canon false b)
  = JsNumber.canon false (a + b).
Proof.
  intros Ha Hb Hab. unfold JsNumber.canon at 1 2. cbn [SFadd cond_Zopp].
  set (dig_a := Z.log2 a + 1). set (dig_b := Z.log2 b + 1).
  assert (Hla : Z.log2 a < 53) by (apply Z.log2_lt_pow2; lia).
  assert (Hlb : Z.log2 b < 53) by (apply Z.log2_lt_pow2; lia).
  pose proof (Z.log2_nonneg a) as Hla0. pose proof (Z.log2_nonneg b) as Hlb0.
  set (ez := Z.min (dig_a - 53) (dig_b - 53)).
  assert (Hpa : 0 < 2 ^ (53 - dig_a)) by (apply Z.pow_pos_nonneg; unfold dig_a; lia).
  assert (Hpb : 0 < 2 ^ (53 - dig_b)) by (apply Z.pow_pos_nonneg; unfold dig_b; lia).
  replace ez with (- (- ez)) at 3 by lia.
  apply binary_normalize_scaled; [lia | unfold ez, dig_a, dig_b; lia |].
  rewrite !shl_align_value by (unfold ez; lia).
  rewrite !Z2Pos.id by (apply Z.mul_pos_pos; lia).
  rewrite <- !Z.mul_assoc, <- !Z.pow_add_r by (unfold ez, dig_a, dig_b; lia).
  replace (53 - dig_a + (dig_a - 53 - ez)) with (- ez) by lia.
  replace (53 - dig_b + (dig_b - 53 - ez)) with (- ez) by lia.
  ring.
Qed.

Lemma scaled_value (z n : Z) :
  0 <= n -> (inject_Z (z * 2 ^ n) * Qpower 2 (- n) == inject_Z z)%Q.
Proof.
  intros Hn. rewrite inject_Z_mult, Zpower_Qpower by exact Hn.
  rewrite Qpower_opp. change (inject_Z 2) with 2%Q.
  rewrite <- Qmult_assoc, Qmult_inv_r, Qmult_1_r; [reflexivity|].
  apply Qpower_not_0. discriminate.
Qed.

(** [a + b] on integral doubles. *)
Lemma add_of_Z (a b : Z) :
  0 <= a -> 0 <= b -> a + b < 2 ^ 53 ->
  JsNumber.add (JsNumber.of_Z a) (JsNumber.of_Z b) = JsNumber.of_Z (a + b).
Proof.
  intros Ha Hb Hab. unfold JsNumber.add, JsNumber.prec, JsNumber.emax.
  destruct (Z.eq_dec a 0) as [->|Ha0]; [|destruct (Z.eq_dec b 0) as [->|Hb0]].
  - rewrite Z.add_0_l. change (JsNumber.of_Z 0) with (S754_zero false).
    destruct (Z.eq_dec b 0) as [->|Hb0]; [reflexivity|].
    rewrite of_Z_canon by lia. reflexivity.
  - rewrite Z.add_0_r. change (JsNumber.of_Z 0) with (S754_zero false).
    rewrite of_Z_canon by lia. reflexivity.
  - rewrite !of_Z_canon by lia. apply add_canon; lia.
Qed.

(** The value of an integral double is the integer. *)
Lemma value_of_Z (z : Z) :
  0 <= z < 2 ^ 53 ->
  exists v, JsNumber.value (JsNumber.of_Z z) = Some v /\ (v == inject_Z z)%Q.
Proof.
  intros Hz. destruct (Z.eq_dec z 0) as [->|Hz0].
  - exists 0%Q. split; reflexivity.
  - rewrite of_Z_canon by lia. unfold JsNumber.canon, JsNumber.value.
    assert (Hl : Z.log2 z < 53) by (apply Z.log2_lt_pow2; lia).
    pose proof (Z.log2_nonneg z) as Hl0.
    assert (0 < 2 ^ (53 - (Z.log2 z + 1))) by (apply Z.pow_pos_nonneg; lia).
    eexists; split; [reflexivity|]. cbn [cond_Zopp].
    rewrite Z2Pos.id by (apply Z.mul_pos_pos; lia).
    replace (Z.log2 z + 1 - 53) with (- (53 - (Z.log2 z + 1))) by lia.
    apply scaled_value. lia.
Qed.

(** *** What one call of [add] does, in closed form *)

Lemma add_unfold (ticket_ids : list Id) (w : World) :
  add ticket_ids w =
  match gateway (submitted ticket_ids w) with
  | Some preference =>
      let row := inserted ticket_ids w preference in
      (Ok row,
       mkWorld
         (mkDatabase (Purchases (db w) ++ [row])
            ((λ r, if decide (ticket_id r ∈
                                ticket_id <$> resolved ticket_ids w)
                   then set_booked (purchase_id row) r else r)
               <$> Tickets (db w)))
         (S (S (S (clock_reads w)))))
  | None => (Throw GatewayError, mkWorld (db w) (S (S (clock_reads w))))
  end.
Proof.
  unfold add, getTickets, postPreference, submitted, inserted, resolved.
  unfold mbind, M_bind, mret, M_ret; simpl.
  destruct (gateway _) as [preference|]; reflexivity.
Qed.

(** *** Rows that are paid already *)

Lemma set_paid_paid (r : PurchaseRow) : status r = paid -> set_paid r = r.
Proof. destruct r; simpl; intros ->; reflexivity. Qed.

Lemma markAsPaid_unfold (i : Id) (w : World) :
  markAsPaid i w =
  (Ok tt,
   mkWorld
     (mkDatabase
        ((λ r, if decide (purchase_id r = i) then set_paid r else r)
           <$> Purchases (db w))
        (Tickets (db w)))
     (clock_reads w)).
Proof. reflexivity. Qed.

Lemma removeById_unfold (i : Id) (w : World) :
  removeById i w =
  (Ok tt,
   mkWorld
     (mkDatabase (filter (λ r, purchase_id r ≠ i) (Purchases (db w)))
        (Tickets (db w)))
     (clock_reads w)).
Proof. reflexivity. Qed.

Lemma getById_unfold (i : Id) (w : World) :
  getById i w =
  (match head (filter (λ r, purchase_id r = i) (Purchases (db w))) with
   | Some row =>
       Ok {| id := purchase_id row; type := "purchase";
             attributes := without_id row; relationships := [] |}
   | None => Throw TypeError
   end, w).
Proof.
  unfold getById, first_Purchases_where_id, asResource.
  unfold mbind, M_bind, mret, M_ret, get_db, throw; simpl.
  destruct (head _); reflexivity.
Qed.

(** Marking twice changes nothing more than marking once. *)
Lemma mark_rows_idem (i : Id) (rows : list PurchaseRow) :
  (λ r, if decide (purchase_id r = i) then set_paid r else r)
    <$> ((λ r, if decide (purchase_id r = i) then set_paid r else r)
           <$> rows)
  = (λ r, if decide (purchase_id r = i) then set_paid r else r) <$> rows.
Proof.
  induction rows as [|r rows IH]; [reflexivity|].
  rewrite !fmap_cons, IH. f_equal.
  destruct (decide (purchase_id r = i)) as [E|E]; simpl.
  - rewrite decide_True by exact E. reflexivity.
  - rewrite decide_False by exact E. reflexivity.
Qed.

(** A paid row survives every operation except its own removal. *)
Lemma paid_row_kept (op : Operation) (w : World) (r : PurchaseRow) :
  r ∈ Purchases (db w) -> status r = paid ->
  r ∈ Purchases (db (perform op w)) \/ op = OpRemoveById (purchase_id r).
Proof.
  intros Hin Hpaid. destruct op as [ids|i|i|i|]; unfold perform.
  - left. rewrite add_unfold.
    destruct (gateway _); simpl; [|exact Hin].
    apply elem_of_app; left; exact Hin.
  - destruct (decide (purchase_id r = i)) as [->|Hne]; [right; reflexivity|].
    left. rewrite removeById_unfold; simpl.
    apply list_elem_of_filter; split; [exact Hne | exact Hin].
  - left. rewrite getById_unfold; exact Hin.
  - left. rewrite markAsPaid_unfold; simpl.
    apply list_elem_of_fmap. exists r; split; [|exact Hin].
    destruct (decide (purchase_id r = i)); [|reflexivity].
    symmetry; apply set_paid_paid; exact Hpaid.
  - left. exact Hin.
Qed.

(** C5: [markAsPaid] succeeds on every id and leaves every order of that
    id paid, without adding or dropping a row; a second call succeeds
    and changes nothing; and no public operation turns a paid order into
    anything else: a paid row is still there, unchanged, after any
    operation other than the removal of that very order. *)
Theorem markAsPaid_idempotent_monotonic :
  (forall (i : Id) (w : World),
      let w1 := world_after (markAsPaid i w) in
      outcome (markAsPaid i w) = Ok tt
      /\ purchase_id <$> Purchases (db w1) = purchase_id <$> Purchases (db w)
      /\ (forall r, r ∈ Purchases (db w1) -> purchase_id r = i ->
                    status r = paid)
      /\ markAsPaid i w1 = (Ok tt, w1))
  /\ (forall (op : Operation) (w : World) (r : PurchaseRow),
         r ∈ Purchases (db w) -> status r = paid ->
         r ∈ Purchases (db (perform op w))
         \/ op = OpRemoveById (purchase_id r)).
Proof.
  split; [|exact paid_row_kept].
  intros i w w1. subst w1. rewrite !markAsPaid_unfold; simpl.
  repeat split.
  - rewrite <- list_fmap_compose. apply list_fmap_ext.
    intros ? r _; simpl. destruct (decide _); reflexivity.
  - intros r Hr Hid. apply list_elem_of_fmap in Hr as (r0 & -> & _).
    destruct (decide (purchase_id r0 = i)) as [|Hne]; [reflexivity|].
    exfalso; apply Hne; exact Hid.
  - rewrite mark_rows_idem. reflexivity.
Qed.

(** C10: on an id that no order has, [markAsPaid] completes without an
    error and leaves the world as it was. *)
Theorem markAsPaid_unknown_id (i : Id) (w : World) :
  (forall r, r ∈ Purchases (db w) -> purchase_id r <> i) ->
  markAsPaid i w = (Ok tt, w).
Proof.
  intros Hfresh. rewrite markAsPaid_unfold.
  destruct w as [[purchases tickets] reads]; simpl in *.
  do 3 f_equal.
  induction purchases as [|r rows IH]; [reflexivity|].
  rewrite fmap_cons, IH.
  - rewrite decide_False; [reflexivity|]. apply Hfresh; left.
  - intros r' Hr'. apply Hfresh; right; exact Hr'.
Qed.

(** *** Creation *)

(** A stored ticket is among the records a request resolves to exactly
    when the request names its id. *)
Lemma resolved_ids (ticket_ids : list Id) (w : World) (t : TicketRow) :
  t ∈ Tickets (db w) ->
  ticket_id t ∈ ticket_id <$> resolved ticket_ids w <-> ticket_id t ∈ ticket_ids.
Proof.
  intros Ht. unfold resolved. split.
  - intros H. apply list_elem_of_fmap in H as (t' & E & H').
    apply list_elem_of_filter in H' as [H' _]. rewrite E; exact H'.
  - intros H. apply list_elem_of_fmap. exists t; split; [reflexivity|].
    apply list_elem_of_filter; split; assumption.
Qed.

Lemma booked_rows (ticket_ids : list Id) (w : World) (purchase : Id) :
  (λ r, if decide (ticket_id r ∈ ticket_id <$> resolved ticket_ids w)
        then set_booked purchase r else r) <$> Tickets (db w)
  = (λ r, if decide (ticket_id r ∈ ticket_ids)
          then set_booked purchase r else r) <$> Tickets (db w).
Proof.
  apply list_fmap_ext. intros k t Hk.
  apply list_elem_of_lookup_2 in Hk.
  pose proof (resolved_ids ticket_ids w t Hk) as Hiff.
  destruct (decide (ticket_id t ∈ ticket_ids)) as [Hin|Hout].
  - rewrite decide_True by (apply Hiff; exact Hin). reflexivity.
  - rewrite decide_False; [reflexivity|].
    intros H; apply Hout, Hiff; exact H.
Qed.

(** C1, as the code has it: [add] checks neither that every requested
    id resolves to a ticket nor that the resolved tickets are still
    available.  It never fails with [NotFound] or [Conflict]; whenever
    the gateway accepts the request, it inserts one order and books
    every stored ticket whose id was requested for that order, whatever
    the ticket's status was, ignoring requested ids that resolve to
    nothing. *)
Theorem add_checks_nothing (ticket_ids : list Id) (w : World) :
  outcome (add ticket_ids w) <> Throw NotFound
  /\ outcome (add ticket_ids w) <> Throw Conflict
  /\ forall preference,
      gateway (submitted ticket_ids w) = Some preference ->
      let row := inserted ticket_ids w preference in
      outcome (add ticket_ids w) = Ok row
      /\ Purchases (db (world_after (add ticket_ids w)))
         = (Purchases (db w) ++ [row])%list
      /\ Tickets (db (world_after (add ticket_ids w)))
         = (λ t, if decide (ticket_id t ∈ ticket_ids)
                 then set_booked (purchase_id row) t else t)
             <$> Tickets (db w).
Proof.
  rewrite add_unfold.
  destruct (gateway (submitted ticket_ids w)) as [p|] eqn:Hg; simpl.
  - split; [discriminate|]. split; [discriminate|].
    intros preference [= <-]. repeat split. apply booked_rows.
  - split; [discriminate|]. split; [discriminate|]. discriminate.
Qed.

(** C7: when the gateway call fails, [add] fails with the gateway's
    error and the database is what it was: no order row, no ticket
    touched. *)
Theorem add_gateway_failure_clean (ticket_ids : list Id) (w : World) :
  gateway (submitted ticket_ids w) = None ->
  outcome (add ticket_ids w) = Throw GatewayError
  /\ db (world_after (add ticket_ids w)) = db w.
Proof.
  intros Hg. rewrite add_unfold, Hg. split; reflexivity.
Qed.

(** *** Deletion *)

(** Rows are dropped by [removeById] only: after any other operation
    every stored order id is still stored. *)
Lemma only_removeById_drops (op : Operation) (w : World) (r : PurchaseRow) :
  r ∈ Purchases (db w) ->
  (forall i, op <> OpRemoveById i) ->
  purchase_id r ∈ purchase_id <$> Purchases (db (perform op w)).
Proof.
  intros Hin Hop. apply list_elem_of_fmap.
  destruct op as [ids|i|i|i|]; unfold perform.
  - exists r; split; [reflexivity|]. rewrite add_unfold.
    destruct (gateway _); simpl; [|exact Hin].
    apply elem_of_app; left; exact Hin.
  - exfalso; apply (Hop i); reflexivity.
  - exists r; split; [reflexivity|]. rewrite getById_unfold; exact Hin.
  - rewrite markAsPaid_unfold; simpl.
    exists (if decide (purchase_id r = i) then set_paid r else r). split.
    + destruct (decide _); reflexivity.
    + apply list_elem_of_fmap. exists r; split; [reflexivity | exact Hin].
  - exists r; split; [reflexivity | exact Hin].
Qed.

(** C6, as the code has it: [delete] fails with [AccessDenied] in every
world and changes nothing, but the public [removeById] is a path that
deletes: it succeeds and drops exactly the order rows of the given id,
leaving the other rows and all tickets as they were.  No other
operation drops an order. *)
Theorem delete_denied_removeById_deletes :
  (forall w : World, delete w = (Throw AccessDenied, w))
  /\ (forall (i : Id) (w : World),
         let w1 := world_after (removeById i w) in
         outcome (removeById i w) = Ok tt
         /\ (forall r, r ∈ Purchases (db w1)
                       <-> r ∈ Purchases (db w) /\ purchase_id r <> i)
         /\ Tickets (db w1) = Tickets (db w))
  /\ (forall (op : Operation) (w : World) (r : PurchaseRow),
         r ∈ Purchases (db w) ->
         (forall i, op <> OpRemoveById i) ->
         purchase_id r ∈ purchase_id <$> Purchases (db (perform op w))).
Proof.
  split; [reflexivity|]. split; [|exact only_removeById_drops].
  intros i w w1. subst w1. rewrite removeById_unfold; simpl.
  split; [reflexivity|]. split; [|reflexivity].
  intros r. rewrite list_elem_of_filter. tauto.
Qed.

(** *** Reading *)

Lemma head_filter_None {A} (P : A -> Prop) `{!∀ x, Decision (P x)}
    (l : list A) :
  (forall x, x ∈ l -> ~ P x) -> head (filter P l) = None.
Proof.
  intros Hnot. induction l as [|x l IH]; [reflexivity|].
  rewrite filter_cons, decide_False by (apply Hnot; left).
  apply IH. intros y Hy; apply Hnot; right; exact Hy.
Qed.

Lemma head_filter_Some {A} (P : A -> Prop) `{!∀ x, Decision (P x)}
    (l : list A) (x : A) :
  x ∈ l -> P x -> exists y, head (filter P l) = Some y /\ y ∈ l /\ P y.
Proof.
  intros Hx HP. induction l as [|z l IH]; [inversion Hx|].
  rewrite filter_cons. destruct (decide (P z)) as [Pz|nPz].
  - exists z; repeat split; [left | exact Pz].
  - apply elem_of_cons in Hx as [->|Hx]; [contradiction|].
    destruct (IH Hx) as (y & E & Hy & Py).
    exists y; repeat split; [exact E | right; exact Hy | exact Py].
Qed.

(** What [getById] does: it never changes the world; when an order of
the given id is stored it returns that order as a resource (its id, the
type ["purchase"], its columns as attributes); when none is stored it
fails with the [TypeError] of reading [id] from the missing row. *)
Lemma getById_fetch (i : Id) (w : World) :
  world_after (getById i w) = w
  /\ ((exists r, r ∈ Purchases (db w) /\ purchase_id r = i) ->
      exists row, row ∈ Purchases (db w) /\ purchase_id row = i
        /\ outcome (getById i w)
           = Ok {| id := i; type := "purchase";
                   attributes := without_id row; relationships := [] |})
  /\ ((forall r, r ∈ Purchases (db w) -> purchase_id r <> i) ->
      outcome (getById i w) = Throw TypeError).
Proof.
  rewrite getById_unfold. split; [reflexivity|]. split.
  - intros (r & Hr & Hi).
    destruct (head_filter_Some (λ r, purchase_id r = i) _ r Hr Hi)
      as (row & E & Hrow & Hid).
    exists row. rewrite E; simpl. rewrite Hid. repeat split; assumption.
  - intros Hnone. rewrite head_filter_None; [reflexivity|].
    intros r Hr; apply Hnone; exact Hr.
Qed.

(** *** The quantity map *)

Lemma quantitiesByType_of_snoc (records : list TicketRow) (r : TicketRow) :
  quantitiesByType_of (records ++ [r])
  = count_type (quantitiesByType_of records) (ticketTypeId r).
Proof.
  unfold quantitiesByType_of. rewrite fmap_app, fold_left_app. reflexivity.
Qed.

(** The reducer returns a fresh one-key object each time, so the map
    never holds more than the type of the last record. *)
Lemma quantitiesByType_of_size (records : list TicketRow) :
  (size (quantitiesByType_of records) <= 1)%nat.
Proof.
  destruct records as [|r records _] using rev_ind.
  - unfold quantitiesByType_of; simpl. rewrite map_size_empty. lia.
  - rewrite quantitiesByType_of_snoc. unfold count_type.
    rewrite map_size_singleton. lia.
Qed.

(** When all records have one type the count is right. *)
Lemma quantitiesByType_of_one_type (c : Z) (records : list TicketRow) :
  records <> [] ->
  Forall (λ r, ticketTypeId r = c) records ->
  quantitiesByType_of records = {[ c := N.of_nat (length records) ]}.
Proof.
  induction records as [|r records IH] using rev_ind; [congruence|].
  intros _ Hall. apply Forall_app in Hall as [Hall Hr].
  inversion_clear Hr as [|? ? Hc _].
  rewrite quantitiesByType_of_snoc, length_app, Hc. unfold count_type.
  destruct records as [|r0 records].
  - reflexivity.
  - rewrite IH by (congruence || exact Hall).
    rewrite lookup_singleton_eq. simpl. f_equal. lia.
Qed.

(** *** The gateway request *)

(** What the line items are: one per selected ticket record, in order.
The line of a ticket carries the quantity map's entry for the ticket's
type as its quantity, a title looked up by that quantity and followed
by the event's name, and the ticket's own price as unit price, or 2 when
[USE_FAKE_PAYMENTS] is set. *)
Theorem line_item_per_ticket (tickets : list TicketRow)
    (quantitiesByType : gmap Z N) (TOMORROW today : Z) :
  let request :=
    preferenceConfiguration_of tickets quantitiesByType TOMORROW today in
  length (items request) = length tickets
  /\ forall (k : nat) (ticket : TicketRow),
      tickets !! k = Some ticket ->
      exists item,
        items request !! k = Some item
        /\ quantity item = quantitiesByType !! ticketTypeId ticket
        /\ title item
           = default "undefined"
               (match quantity item with
                | Some 1%N => Some "Entrada"
                | Some 2%N => Some "Par de Entradas"
                | Some 3%N => Some "Trío de Entradas"
                | _ => None
                end) ++ " para Córdoba WebConf 2019"
        /\ unit_price item
           = match USE_FAKE_PAYMENTS process_env with
             | Some (String _ _) => JsNumber.of_Z 2
             | _ => price ticket
             end.
Proof.
  simpl. split; [apply length_fmap|].
  intros k ticket Hk. exists (line_item quantitiesByType ticket).
  rewrite list_lookup_fmap, Hk. repeat split.
  unfold line_item, JsString.truthy; simpl.
  destruct (USE_FAKE_PAYMENTS process_env) as [[|]|]; reflexivity.
Qed.

(** The expiration window of the request [add] submits: it opens at the
    second clock reading and closes [60 * 60 * 60 * 24 * 1000]
    milliseconds, which is sixty days, after the first. *)
Lemma expiration_window (ticket_ids : list Id) (w : World) :
  expiration_date_from (submitted ticket_ids w)
  = expiration (clock (S (clock_reads w)))
  /\ expiration_date_to (submitted ticket_ids w)
     = expiration (clock (clock_reads w) + 60 * JsDate.msPerDay).
Proof. split; reflexivity. Qed.

(** *** The billed amount *)

Lemma sum_Z_Permutation (xs ys : list Z) :
  xs ≡ₚ ys -> JsNumber.sum_Z xs = JsNumber.sum_Z ys.
Proof.
  induction 1 as [|x xs ys _ IH|x y xs|xs ys zs _ IH1 _ IH2];
    unfold JsNumber.sum_Z in *; simpl; lia.
Qed.

Lemma sum_Z_nonneg (zs : list Z) :
  Forall (λ z, 0 <= z) zs -> 0 <= JsNumber.sum_Z zs.
Proof.
  induction 1 as [|z zs Hz _ IH]; unfold JsNumber.sum_Z in *; simpl; lia.
Qed.

(** The running sum of integral prices is exact. *)
Lemma running_sum_of_Z (zs : list Z) :
  forall a : Z,
    0 <= a -> Forall (λ z, 0 <= z) zs -> a + JsNumber.sum_Z zs < 2 ^ 53 ->
    fold_left (λ priceSum price, JsNumber.add priceSum price)
      (JsNumber.of_Z <$> zs) (JsNumber.of_Z a)
    = JsNumber.of_Z (a + JsNumber.sum_Z zs).
Proof.
  induction zs as [|z zs IH]; intros a Ha Hall Hsum.
  - simpl. f_equal. unfold JsNumber.sum_Z; simpl. lia.
  - inversion_clear Hall as [|? ? Hz Hzs].
    pose proof (sum_Z_nonneg zs Hzs) as Hnn.
    change (JsNumber.sum_Z (z :: zs)) with (z + JsNumber.sum_Z zs) in *.
    rewrite fmap_cons. cbn [fold_left].
    rewrite add_of_Z by lia. rewrite IH by (lia || exact Hzs).
    f_equal. lia.
Qed.

Lemma exact_sum_of_Z (zs : list Z) :
  Forall (λ z, 0 <= z < 2 ^ 53) zs ->
  exists e, JsNumber.exact_sum (JsNumber.of_Z <$> zs) = Some e
            /\ (e == inject_Z (JsNumber.sum_Z zs))%Q.
Proof.
  induction 1 as [|z zs Hz _ (e & He & Heq)].
  - exists 0%Q. split; reflexivity.
  - destruct (value_of_Z z Hz) as (v & Hv & Hveq).
    exists (v + e)%Q. split.
    + rewrite fmap_cons. unfold JsNumber.exact_sum in *. cbn [foldr].
      rewrite He, Hv. reflexivity.
    + change (JsNumber.sum_Z (z :: zs)) with (z + JsNumber.sum_Z zs).
      rewrite inject_Z_plus, Hveq, Heq. reflexivity.
Qed.

(** Under the primary key, the records a duplicate-free request resolves
to carry the requested ids, each once. *)
Lemma resolved_ids_Permutation (ticket_ids : list Id) (w : World) :
  NoDup ticket_ids ->
  NoDup (ticket_id <$> Tickets (db w)) ->
  (forall i, i ∈ ticket_ids -> exists t, t ∈ Tickets (db w) /\ ticket_id t = i) ->
  ticket_id <$> resolved ticket_ids w ≡ₚ ticket_ids.
Proof.
  intros Hids Hkey Hall. apply NoDup_Permutation; [|exact Hids|].
  - eapply sublist_NoDup; [exact Hkey|].
    apply fmap_sublist, sublist_filter.
  - intros i. unfold resolved. rewrite list_elem_of_fmap. split.
    + intros (t & -> & Ht). apply list_elem_of_filter in Ht as [Ht _]. exact Ht.
    + intros Hi. destruct (Hall i Hi) as (t & Ht & <-).
      exists t. split; [reflexivity|].
      apply list_elem_of_filter; split; assumption.
Qed.

(** C2, as the code has it: for a non-empty, duplicate-free request whose
ids all resolve to available tickets, the order [add] creates is stored
with status [unpaid] and with [amountBilled] the sum of the resolved
tickets' prices in double-precision arithmetic, accumulated from 0 in
storage order and rounded at each step.  That sum is the exact one when
the prices are non-negative integers whose total is below [2 ^ 53]. *)
Theorem add_amountBilled (ticket_ids : list Id) (w : World)
    (preference : Preference) :
  ticket_ids <> [] ->
  NoDup ticket_ids ->
  NoDup (ticket_id <$> Tickets (db w)) ->
  (forall i, i ∈ ticket_ids ->
     exists t, t ∈ Tickets (db w) /\ ticket_id t = i
               /\ ticket_status t = available) ->
  gateway (submitted ticket_ids w) = Some preference ->
  exists order,
    outcome (add ticket_ids w) = Ok order
    /\ order ∈ Purchases (db (world_after (add ticket_ids w)))
    /\ status order = unpaid
    /\ amountBilled order
       = fold_left JsNumber.add (price <$> resolved ticket_ids w) JsNumber.zero
    /\ forall amount : Id -> Z,
        (forall t, t ∈ Tickets (db w) -> ticket_id t ∈ ticket_ids ->
                   price t = JsNumber.of_Z (amount (ticket_id t))
                   /\ 0 <= amount (ticket_id t)) ->
        JsNumber.sum_Z (amount <$> ticket_ids) < 2 ^ 53 ->
        amountBilled order
        = JsNumber.of_Z (JsNumber.sum_Z (amount <$> ticket_ids))
        /\ JsNumber.is_exact_sum (amountBilled order)
             (price <$> resolved ticket_ids w) = true.
Proof.
  intros _ Hids Hkey Hall Hg.
  exists (inserted ticket_ids w preference).
  rewrite add_unfold, Hg. cbn [outcome world_after fst snd db Purchases].
  split; [reflexivity|]. split; [apply elem_of_app; right; left|].
  split; [reflexivity|]. split; [reflexivity|].
  intros amount Hprice Hbound.
  cbn [inserted row_of amountBilled attr_amountBilled].
  set (records := resolved ticket_ids w).
  set (zs := (λ t, amount (ticket_id t)) <$> records).
  assert (Hperm : zs ≡ₚ amount <$> ticket_ids).
  { unfold zs. rewrite (list_fmap_compose ticket_id amount).
    apply fmap_Permutation, resolved_ids_Permutation; [exact Hids|exact Hkey|].
    intros i Hi. destruct (Hall i Hi) as (t & Ht & Hid & _). eauto. }
  assert (Hrec : forall t, t ∈ records ->
                   price t = JsNumber.of_Z (amount (ticket_id t))
                   /\ 0 <= amount (ticket_id t)).
  { intros t Ht. apply list_elem_of_filter in Ht as [Hin Ht].
    apply Hprice; assumption. }
  assert (Hprices : price <$> records = JsNumber.of_Z <$> zs).
  { unfold zs. rewrite <- list_fmap_compose. apply list_fmap_ext.
    intros k t Hk. apply list_elem_of_lookup_2 in Hk.
    apply (Hrec t Hk). }
  assert (Hnn : Forall (λ z, 0 <= z) zs).
  { unfold zs. apply Forall_fmap, Forall_forall. intros t Ht.
    apply (Hrec t Ht). }
  assert (Hsum : JsNumber.sum_Z zs < 2 ^ 53)
    by (rewrite (sum_Z_Permutation _ _ Hperm); exact Hbound).
  assert (Htotal : totalPrice_of records = JsNumber.of_Z (JsNumber.sum_Z zs)).
  { unfold totalPrice_of, Number.
    change ((λ record, price record) <$> records) with (price <$> records).
    rewrite Hprices. change JsNumber.zero with (JsNumber.of_Z 0).
    rewrite running_sum_of_Z by (lia || exact Hnn). reflexivity. }
  rewrite Htotal. split.
  - f_equal. apply sum_Z_Permutation, Hperm.
  - pose proof (sum_Z_nonneg zs Hnn) as Hs0.
    destruct (value_of_Z (JsNumber.sum_Z zs)) as (v & Hv & Hveq); [lia|].
    destruct (exact_sum_of_Z zs) as (e & He & Heq).
    { clear -Hnn Hsum. induction Hnn as [|z zs Hz Hzs IH]; constructor.
      - pose proof (sum_Z_nonneg zs Hzs).
        change (JsNumber.sum_Z (z :: zs)) with (z + JsNumber.sum_Z zs) in Hsum.
        lia.
      - apply IH. pose proof (sum_Z_nonneg zs Hzs).
        change (JsNumber.sum_Z (z :: zs)) with (z + JsNumber.sum_Z zs) in Hsum.
        lia. }
    unfold JsNumber.is_exact_sum. rewrite Hv, Hprices, He.
    apply Qeq_bool_iff. rewrite Hveq, Heq. reflexivity.
Qed.

(** Times from 0000-01-01 to 9999-12-31 fall in four-digit years. *)
Lemma civil_year_range (days : Z) :
  -719528 <= days <= 2932896 ->
  0 <= fst (fst (JsDate.civil days)) <= 9999.
Proof.
  intros Hdays. unfold JsDate.civil. cbn [fst].
  destruct (_ <? 10) eqn:E1; destruct (_ <=? 2) eqn:E2;
    rewrite ?Z.ltb_lt, ?Z.ltb_ge, ?Z.leb_le, ?Z.leb_gt in *;
    Z.to_euclidean_division_equations; lia.
Qed.

(** The serialization of an expiration date: for a time in the years 0
to 9999 it is the UTC calendar reading with three fractional digits,
followed by the suffix ["-03:00"] in place of ["Z"]: 29 characters. *)
Lemma expiration_format (t : Z) :
  -62167219200000 <= t < 253402300800000 ->
  let '(y, m, d) := JsDate.civil (t / JsDate.msPerDay) in
  let ms := t mod JsDate.msPerDay in
  expiration t
  = JsDate.pad4 y ++ "-" ++ JsDate.pad2 m ++ "-" ++ JsDate.pad2 d ++ "T"
      ++ JsDate.pad2 (ms / 3600000) ++ ":" ++ JsDate.pad2 (ms / 60000 mod 60)
      ++ ":" ++ JsDate.pad2 (ms / 1000 mod 60) ++ "."
      ++ JsDate.pad3 (ms mod 1000) ++ "-03:00"
  /\ String.length (expiration t) = 29%nat.
Proof.
  intros Ht.
  assert (Hdays : -719528 <= t / JsDate.msPerDay <= 2932896).
  { unfold JsDate.msPerDay. Z.to_euclidean_division_equations; lia. }
  pose proof (civil_year_range _ Hdays) as Hy.
  unfold expiration, JsDate.toJSON.
  destruct (JsDate.civil (t / JsDate.msPerDay)) as [[y m] d].
  cbn [fst] in Hy. unfold JsDate.year_string.
  replace ((0 <=? y) && (y <=? 9999)) with true
    by (symmetry; apply andb_true_intro; split; apply Z.leb_le; lia).
  split; reflexivity.
Qed.

(** *** Splitting and joining strings *)

Lemma split_cons (sep : ascii) (s : string) :
  exists first rest, JsString.split sep s = first :: rest
                     /\ JsString.includes sep first = false.
Proof.
  induction s as [|c s (first & rest & E & Hfirst)]; simpl.
  - exists EmptyString, []. split; reflexivity.
  - destruct (Ascii.eqb c sep) eqn:Hc.
    + exists EmptyString, (JsString.split sep s). split; reflexivity.
    + rewrite E. exists (String c first), rest. split; [reflexivity|].
      simpl. rewrite Hc, Hfirst. reflexivity.
Qed.

Lemma concat_cons (sep x : string) (xs : list string) :
  xs <> [] -> String.concat sep (x :: xs) = x ++ sep ++ String.concat sep xs.
Proof. destruct xs; [congruence | reflexivity]. Qed.

Lemma split_not_nil (sep : ascii) (s : string) : JsString.split sep s <> [].
Proof. destruct (split_cons sep s) as (? & ? & -> & _). discriminate. Qed.

(** Joining the pieces of a split gives the string back. *)
Lemma join_split (sep : ascii) (s : string) :
  JsString.join (String sep EmptyString) (JsString.split sep s) = s.
Proof.
  unfold JsString.join. induction s as [|c s IH]; [reflexivity|].
  simpl. destruct (Ascii.eqb c sep) eqn:Hc.
  - apply Ascii.eqb_eq in Hc as ->.
    rewrite concat_cons by apply split_not_nil. rewrite IH. reflexivity.
  - destruct (JsString.split sep s) as [|first rest] eqn:E.
    + exfalso. exact (split_not_nil sep s E).
    + destruct rest as [|second rest].
      * simpl in *. rewrite IH. reflexivity.
      * rewrite concat_cons in * by discriminate.
        rewrite <- IH. reflexivity.
Qed.

Lemma split_without (sep : ascii) (x : string) :
  JsString.includes sep x = false -> JsString.split sep x = [x].
Proof.
  induction x as [|c x IH]; [reflexivity|]. simpl.
  destruct (Ascii.eqb c sep); [discriminate|]. simpl.
  intros Hx. rewrite (IH Hx). reflexivity.
Qed.

Lemma split_append (sep : ascii) (x y : string) :
  JsString.includes sep x = false ->
  JsString.split sep (x ++ String sep y) = x :: JsString.split sep y.
Proof.
  induction x as [|c x IH]; simpl.
  - intros _. rewrite Ascii.eqb_refl. reflexivity.
  - destruct (Ascii.eqb c sep); [discriminate|]. simpl.
    intros Hx. rewrite (IH Hx). reflexivity.
Qed.

(** Splitting a join gives the pieces back, when there is a piece and no
piece holds the separator. *)
Lemma split_join (sep : ascii) (xs : list string) :
  xs <> [] ->
  Forall (λ x, JsString.includes sep x = false) xs ->
  JsString.split sep (JsString.join (String sep EmptyString) xs) = xs.
Proof.
  unfold JsString.join. intros Hne Hall.
  induction Hall as [|x xs Hx Hxs IH]; [congruence|].
  destruct xs as [|y xs].
  - simpl. apply split_without; exact Hx.
  - rewrite concat_cons by discriminate.
    change (String sep EmptyString ++ ?s) with (String sep s).
    rewrite split_append by exact Hx. f_equal. apply IH. discriminate.
Qed.

(** *** More about the gateway request *)

(** The [external_reference] of a request can be split back into the ids
of its tickets, in order, provided there is a ticket and no id holds a
["|"]. *)
Theorem external_reference_decodes (tickets : list TicketRow)
    (quantitiesByType : gmap Z N) (TOMORROW today : Z) :
  tickets <> [] ->
  Forall (λ ticket, JsString.includes "|" (ticket_id ticket) = false) tickets ->
  JsString.split "|"
    (external_reference
       (preferenceConfiguration_of tickets quantitiesByType TOMORROW today))
  = ticket_id <$> tickets.
Proof.
  intros Hne Hall. cbn [preferenceConfiguration_of external_reference].
  apply split_join.
  - destruct tickets; [congruence | discriminate].
  - apply Forall_fmap. exact Hall.
Qed.

(** No piece of a split holds the separator. *)
Lemma split_pieces_without (sep : ascii) (s : string) :
  Forall (λ piece, JsString.includes sep piece = false) (JsString.split sep s).
Proof.
  induction s as [|c s IH]; simpl.
  - repeat constructor.
  - destruct (Ascii.eqb c sep) eqn:Hc.
    + constructor; [reflexivity | exact IH].
    + destruct (JsString.split sep s) as [|piece pieces].
      * repeat constructor. simpl. rewrite Hc. reflexivity.
      * inversion_clear IH as [|? ? Hpiece Hpieces].
        constructor; [|exact Hpieces]. simpl. rewrite Hc, Hpiece. reflexivity.
Qed.

(** The excluded payment types are the comma-separated pieces of
[MP_EXCLUDED_PAYMENT_TYPES]: no piece holds a comma, and joined by commas
they give the variable back, which makes them the only such list.  The
list is never empty: with the variable unset or empty it holds one
entry, whose id is the empty string. *)
Theorem excluded_payment_types_pieces (tickets : list TicketRow)
    (quantitiesByType : gmap Z N) (TOMORROW today : Z) :
  let excluded :=
    excluded_payment_types
      (preferenceConfiguration_of tickets quantitiesByType TOMORROW today) in
  JsString.join "," excluded
  = default "" (MP_EXCLUDED_PAYMENT_TYPES process_env)
  /\ Forall (λ piece, JsString.includes "," piece = false) excluded
  /\ (forall pieces : list string,
        pieces <> [] ->
        Forall (λ piece, JsString.includes "," piece = false) pieces ->
        JsString.join "," pieces
        = default "" (MP_EXCLUDED_PAYMENT_TYPES process_env) ->
        pieces = excluded)
  /\ excluded <> []
  /\ (JsString.truthy (MP_EXCLUDED_PAYMENT_TYPES process_env) = false ->
      excluded = [""]).
Proof.
  cbn [preferenceConfiguration_of excluded_payment_types].
  split; [apply join_split|]. split; [apply split_pieces_without|].
  split.
  { intros pieces Hne Hall <-. symmetry. apply split_join; assumption. }
  split; [apply split_not_nil|].
  destruct (MP_EXCLUDED_PAYMENT_TYPES process_env) as [[|c s]|];
    [reflexivity | discriminate | reflexivity].
Qed.

(** When the tickets a request resolves to all have one type, every line
item of the submitted request carries the number of tickets as its
quantity, and there is one line item per ticket: [n] tickets give [n]
lines of quantity [n] each. *)
Theorem one_type_quantities (ticket_ids : list Id) (w : World) (c : Z) :
  resolved ticket_ids w <> [] ->
  Forall (λ ticket, ticketTypeId ticket = c) (resolved ticket_ids w) ->
  let n := length (resolved ticket_ids w) in
  length (items (submitted ticket_ids w)) = n
  /\ Forall (λ item, quantity item = Some (N.of_nat n))
       (items (submitted ticket_ids w)).
Proof.
  intros Hne Hall n. unfold submitted.
  cbn [preferenceConfiguration_of items].
  split; [apply length_fmap|].
  rewrite (quantitiesByType_of_one_type c _ Hne Hall).
  apply Forall_fmap, Forall_forall. intros ticket Hticket.
  rewrite Forall_forall in Hall. cbn [line_item quantity compose].
  rewrite (Hall ticket Hticket). apply lookup_singleton_eq.
Qed.

(** A request none of whose ids resolves to a ticket (the empty request
among them) is not refused: the request submitted to the gateway has no
line item and an empty [external_reference], and when the gateway
accepts it an order billed 0 is stored and no ticket is touched. *)
Theorem add_nothing_resolved (ticket_ids : list Id) (w : World) :
  (forall t, t ∈ Tickets (db w) -> ticket_id t ∉ ticket_ids) ->
  items (submitted ticket_ids w) = []
  /\ external_reference (submitted ticket_ids w) = ""
  /\ forall preference,
      gateway (submitted ticket_ids w) = Some preference ->
      exists order,
        outcome (add ticket_ids w) = Ok order
        /\ amountBilled order = JsNumber.zero
        /\ Purchases (db (world_after (add ticket_ids w)))
           = (Purchases (db w) ++ [order])%list
        /\ Tickets (db (world_after (add ticket_ids w))) = Tickets (db w).
Proof.
  intros Hnone.
  assert (Hres : resolved ticket_ids w = []).
  { unfold resolved. induction (Tickets (db w)) as [|t ts IH]; [reflexivity|].
    rewrite filter_cons, decide_False by (apply Hnone; left).
    apply IH. intros t' Ht'. apply Hnone. right. exact Ht'. }
  unfold submitted. rewrite Hres. split; [reflexivity|]. split; [reflexivity|].
  intros preference Hg. exists (inserted ticket_ids w preference).
  rewrite add_unfold. unfold submitted. rewrite Hres, Hg.
  cbn [outcome world_after fst snd db Purchases Tickets].
  split; [reflexivity|]. split.
  { cbn [inserted row_of amountBilled attr_amountBilled]. rewrite Hres.
    reflexivity. }
  split; [reflexivity|].
  rewrite <- (list_fmap_id (Tickets (db w))) at 2.
  apply list_fmap_ext. intros k t Hk. cbn [fmap list_fmap].
  rewrite decide_False; [reflexivity | apply not_elem_of_nil].
Qed.

(** With [USE_FAKE_PAYMENTS] set, the gateway is asked for 2 per line
whatever the tickets cost, while the stored order is still billed the sum
of the real prices. *)
Theorem fake_payments_request_only (ticket_ids : list Id) (w : World)
    (preference : Preference) :
  JsString.truthy (USE_FAKE_PAYMENTS process_env) = true ->
  gateway (submitted ticket_ids w) = Some preference ->
  Forall (λ item, unit_price item = JsNumber.of_Z 2)
    (items (submitted ticket_ids w))
  /\ exists order,
       outcome (add ticket_ids w) = Ok order
       /\ amountBilled order
          = fold_left JsNumber.add (price <$> resolved ticket_ids w)
              JsNumber.zero.
Proof.
  intros Hfake Hg. split.
  - unfold submitted. cbn [preferenceConfiguration_of items].
    apply Forall_fmap, Forall_forall. intros ticket _.
    unfold compose. cbn [line_item unit_price]. rewrite Hfake. reflexivity.
  - exists (inserted ticket_ids w preference).
    rewrite add_unfold, Hg. split; reflexivity.
Qed.


(** *** What the operations keep *)

(** No operation adds, drops or reorders a ticket, or changes a ticket's
id, price or type.  A ticket is either left exactly as it was or, by
[add] alone, ends up booked: none goes back to available. *)
Theorem tickets_kept (op : Operation) (w : World) :
  Forall2
    (λ before after,
       ticket_id after = ticket_id before
       /\ price after = price before
       /\ ticketTypeId after = ticketTypeId before
       /\ (after = before
           \/ ticket_status after = booked /\ exists ids, op = OpAdd ids))
    (Tickets (db w)) (Tickets (db (perform op w))).
Proof.
  assert (Hsame : forall ts : list TicketRow,
             Forall2
               (λ before after,
                  ticket_id after = ticket_id before
                  /\ price after = price before
                  /\ ticketTypeId after = ticketTypeId before
                  /\ (after = before
                      \/ ticket_status after = booked
                         /\ exists ids, op = OpAdd ids)) ts ts).
  { intros ts. apply Forall_Forall2_diag, Forall_forall. intros t _.
    repeat split; left; reflexivity. }
  destruct op as [ids|i|i|i|]; unfold perform.
  - rewrite add_unfold. destruct (gateway _); cbn [world_after snd db Tickets];
      [|apply Hsame].
    apply Forall2_fmap_r, Forall_Forall2_diag, Forall_forall. intros t _.
    unfold compose. case_decide; [|repeat split; left; reflexivity].
    repeat split. right. split; [reflexivity | exists ids; reflexivity].
  - rewrite removeById_unfold. apply Hsame.
  - rewrite getById_unfold. apply Hsame.
  - rewrite markAsPaid_unfold. apply Hsame.
  - apply Hsame.
Qed.

(** The billing fields of a stored order never change: after any
operation other than the removal of that order, an order of the same id,
creation date, billed amount and external id is stored, whose status is
the old one or [paid]. *)
Theorem order_fields_kept (op : Operation) (w : World) (r : PurchaseRow) :
  r ∈ Purchases (db w) ->
  op = OpRemoveById (purchase_id r)
  \/ exists r', r' ∈ Purchases (db (perform op w))
       /\ purchase_id r' = purchase_id r
       /\ dateCreated r' = dateCreated r
       /\ amountBilled r' = amountBilled r
       /\ externalId r' = externalId r
       /\ (status r' = status r \/ status r' = paid).
Proof.
  intros Hin.
  assert (Hkeep : r ∈ Purchases (db (perform op w)) ->
            exists r', r' ∈ Purchases (db (perform op w))
              /\ purchase_id r' = purchase_id r
              /\ dateCreated r' = dateCreated r
              /\ amountBilled r' = amountBilled r
              /\ externalId r' = externalId r
              /\ (status r' = status r \/ status r' = paid)).
  { intros H. exists r. repeat split; [exact H | left; reflexivity]. }
  destruct op as [ids|i|i|i|]; unfold perform in *.
  - right. apply Hkeep. rewrite add_unfold.
    destruct (gateway _); simpl; [|exact Hin].
    apply elem_of_app; left; exact Hin.
  - destruct (decide (purchase_id r = i)) as [->|Hne]; [left; reflexivity|].
    right. apply Hkeep. rewrite removeById_unfold; simpl.
    apply list_elem_of_filter; split; [exact Hne | exact Hin].
  - right. apply Hkeep. rewrite getById_unfold; exact Hin.
  - right. clear Hkeep. rewrite markAsPaid_unfold; simpl.
    exists (if decide (purchase_id r = i) then set_paid r else r). split.
    + apply list_elem_of_fmap. exists r; split; [reflexivity | exact Hin].
    + destruct (decide _); repeat split; (left; reflexivity) || (right; reflexivity).
  - right. apply Hkeep. exact Hin.
Qed.

(** [markAsPaid] touches nothing but the orders of the given id: every
other order stays as it was, in its place, and so do all tickets. *)
Theorem markAsPaid_frame (i : Id) (w : World) :
  let w1 := world_after (markAsPaid i w) in
  Forall2 (λ before after,
             purchase_id before <> i -> after = before)
    (Purchases (db w)) (Purchases (db w1))
  /\ Tickets (db w1) = Tickets (db w).
Proof.
  intros w1. subst w1. rewrite markAsPaid_unfold; simpl.
  split; [|reflexivity].
  apply Forall2_fmap_r, Forall_Forall2_diag, Forall_forall. intros r _ Hne.
  rewrite decide_False by exact Hne. reflexivity.
Qed.

(** [removeById] releases nothing: the tickets booked for the removed
order stay booked and keep pointing at its id, which no stored order has
any more. *)
Theorem removeById_leaves_tickets_booked (i : Id) (w : World)
    (t : TicketRow) :
  t ∈ Tickets (db w) ->
  purchaseId t = Some i ->
  let w1 := world_after (removeById i w) in
  (exists t', t' ∈ Tickets (db w1)
              /\ ticket_id t' = ticket_id t
              /\ ticket_status t' = ticket_status t
              /\ purchaseId t' = Some i)
  /\ (forall r, r ∈ Purchases (db w1) -> purchase_id r <> i).
Proof.
  intros Ht Hbound w1. subst w1. rewrite removeById_unfold; simpl.
  split; [exists t; repeat split; assumption|].
  intros r Hr. apply list_elem_of_filter in Hr as [Hne _]. exact Hne.
Qed.

(** *** How the operations compose *)

Lemma filter_none {A} (P : A -> Prop) `{!∀ x, Decision (P x)} (l : list A) :
  (forall x, x ∈ l -> ~ P x) -> filter P l = [].
Proof.
  intros Hnot. induction l as [|x l IH]; [reflexivity|].
  rewrite filter_cons, decide_False by (apply Hnot; left).
  apply IH. intros y Hy; apply Hnot; right; exact Hy.
Qed.

(** An order can be read back as soon as it is created: when the storage
generates an id that no stored order has, [getById] on the id of the
order [add] returned yields that order's attributes. *)
Theorem add_then_getById (ticket_ids : list Id) (w : World)
    (preference : Preference) :
  generated_id (Purchases (db w)) ∉ purchase_id <$> Purchases (db w) ->
  gateway (submitted ticket_ids w) = Some preference ->
  exists order,
    outcome (add ticket_ids w) = Ok order
    /\ outcome (getById (purchase_id order) (world_after (add ticket_ids w)))
       = Ok {| id := purchase_id order; type := "purchase";
               attributes :=
                 {| attr_dateCreated := dateCreated order;
                    attr_status := unpaid;
                    attr_amountBilled := amountBilled order;
                    attr_externalId := preference_id preference |};
               relationships := [] |}.
Proof.
  intros Hfresh Hg. exists (inserted ticket_ids w preference).
  rewrite add_unfold, Hg. cbv beta iota zeta delta [outcome world_after fst snd].
  split; [reflexivity|]. rewrite getById_unfold.
  cbv beta iota zeta delta [db Purchases fst]. rewrite filter_app, filter_none.
  - cbn [app]. rewrite filter_cons, decide_True by reflexivity. reflexivity.
  - intros r Hr Hid. apply Hfresh. apply list_elem_of_fmap.
    exists r. split; [symmetry; exact Hid | exact Hr].
Qed.

(** Paying a fresh order: after [add], [markAsPaid] on the new order's id
and [getById] on it, the order reads as [paid] with the amount, creation
date and external id it was created with. *)
Theorem add_markAsPaid_getById (ticket_ids : list Id) (w : World)
    (preference : Preference) :
  generated_id (Purchases (db w)) ∉ purchase_id <$> Purchases (db w) ->
  gateway (submitted ticket_ids w) = Some preference ->
  exists order,
    outcome (add ticket_ids w) = Ok order
    /\ outcome
         (getById (purchase_id order)
            (world_after
               (markAsPaid (purchase_id order)
                  (world_after (add ticket_ids w)))))
       = Ok {| id := purchase_id order; type := "purchase";
               attributes :=
                 {| attr_dateCreated := dateCreated order;
                    attr_status := paid;
                    attr_amountBilled := amountBilled order;
                    attr_externalId := externalId order |};
               relationships := [] |}.
Proof.
  intros Hfresh Hg. exists (inserted ticket_ids w preference).
  rewrite add_unfold, Hg. cbv beta iota zeta delta [outcome world_after fst snd].
  split; [reflexivity|]. rewrite markAsPaid_unfold, getById_unfold.
  cbv beta iota zeta delta [db Purchases fst snd].
  rewrite fmap_app, filter_app, filter_none.
  - cbn [app fmap list_fmap]. rewrite decide_True by reflexivity.
    rewrite filter_cons, decide_True by reflexivity. reflexivity.
  - intros r Hr Hid. apply list_elem_of_fmap in Hr as (r0 & -> & Hr0).
    apply Hfresh. apply list_elem_of_fmap. exists r0. split; [|exact Hr0].
    destruct (decide (purchase_id r0 = _)) as [E|E];
      [symmetry; exact E | symmetry; exact Hid].
Qed.

(** After [removeById] the order cannot be read any more, and removing
it again changes nothing. *)
Theorem removeById_then_getById (i : Id) (w : World) :
  let w1 := world_after (removeById i w) in
  outcome (getById i w1) = Throw TypeError
  /\ removeById i w1 = (Ok tt, w1).
Proof.
  intros w1. subst w1. rewrite removeById_unfold. cbn [world_after snd].
  split.
  - rewrite getById_unfold. cbn [outcome fst db Purchases].
    rewrite head_filter_None; [reflexivity|].
    intros r Hr. apply list_elem_of_filter in Hr as [Hne _]. exact Hne.
  - rewrite removeById_unfold. cbn [db Purchases Tickets clock_reads].
    do 3 f_equal. rewrite list_filter_filter. apply list_filter_iff.
    intros r; tauto.
Qed.

(** What [getById] returns is a stored order: its id is the one asked
for, its type is ["purchase"], it has no relationships, and its id and
attributes are those of a row of [Purchases]. *)
Theorem getById_returns_stored (i : Id) (w : World) (p : Purchase) :
  outcome (getById i w) = Ok p ->
  id p = i /\ type p = "purchase" /\ relationships p = []
  /\ row_of (id p) (attributes p) ∈ Purchases (db w).
Proof.
  rewrite getById_unfold. cbn [outcome fst].
  destruct (head _) as [row|] eqn:E; [|discriminate].
  intros [= <-]. cbn [id type relationships attributes].
  apply head_Some_elem_of, list_elem_of_filter in E as [Hid Hin].
  repeat split; [exact Hid|]. destruct row; exact Hin.
Qed.

(** Booking does not change which records a request resolves to, nor
their prices. *)
Lemma resolved_prices_after_booking (ticket_ids : list Id) (purchase : Id)
    (tickets : list TicketRow) :
  price <$> filter (λ r, ticket_id r ∈ ticket_ids)
              ((λ t, if decide (ticket_id t ∈ ticket_ids)
                     then set_booked purchase t else t) <$> tickets)
  = price <$> filter (λ r, ticket_id r ∈ ticket_ids) tickets.
Proof.
  induction tickets as [|t tickets IH]; [reflexivity|].
  rewrite fmap_cons, !filter_cons.
  destruct (decide (ticket_id t ∈ ticket_ids)) as [Hin|Hout].
  - cbn [set_booked ticket_id]. rewrite decide_True by exact Hin.
    rewrite !fmap_cons, IH. reflexivity.
  - rewrite decide_False by exact Hout. exact IH.
Qed.

(** Nothing stops the same tickets from being sold twice: when the
gateway accepts both requests, a second [add] of the same ids stores a
second order, billed the same amount as the first, and every requested
ticket ends up booked for the second order. *)
Theorem add_twice_rebinds (ticket_ids : list Id) (w : World)
    (first second : Preference) :
  gateway (submitted ticket_ids w) = Some first ->
  gateway (submitted ticket_ids (world_after (add ticket_ids w)))
  = Some second ->
  exists order1 order2,
    outcome (add ticket_ids w) = Ok order1
    /\ outcome (add ticket_ids (world_after (add ticket_ids w))) = Ok order2
    /\ Purchases (db (world_after
                        (add ticket_ids (world_after (add ticket_ids w)))))
       = (Purchases (db w) ++ [order1; order2])%list
    /\ amountBilled order2 = amountBilled order1
    /\ forall t,
        t ∈ Tickets (db (world_after
                           (add ticket_ids (world_after (add ticket_ids w))))) ->
        ticket_id t ∈ ticket_ids ->
        ticket_status t = booked /\ purchaseId t = Some (purchase_id order2).
Proof.
  intros Hg1 Hg2.
  set (w1 := world_after (add ticket_ids w)) in *.
  assert (Hadd1 : add ticket_ids w
                  = (Ok (inserted ticket_ids w first), w1)).
  { unfold w1. rewrite add_unfold, Hg1. reflexivity. }
  assert (Ht1 : Tickets (db w1)
                = (λ t, if decide (ticket_id t ∈ ticket_ids)
                        then set_booked
                               (purchase_id (inserted ticket_ids w first)) t
                        else t) <$> Tickets (db w)).
  { unfold w1. rewrite add_unfold, Hg1. apply booked_rows. }
  assert (Hp1 : Purchases (db w1)
                = (Purchases (db w) ++ [inserted ticket_ids w first])%list).
  { unfold w1. rewrite add_unfold, Hg1. reflexivity. }
  exists (inserted ticket_ids w first), (inserted ticket_ids w1 second).
  rewrite Hadd1. rewrite (add_unfold ticket_ids w1), Hg2.
  cbv beta iota zeta delta [outcome world_after fst snd].
  split; [reflexivity|]. split; [reflexivity|]. split.
  { cbn [db Purchases]. rewrite Hp1, <- app_assoc. reflexivity. }
  split.
  { cbn [inserted row_of amountBilled attr_amountBilled].
    unfold totalPrice_of, Number, resolved.
    change ((λ record, price record) <$> ?l) with (price <$> l).
    rewrite Ht1, resolved_prices_after_booking. reflexivity. }
  intros t Ht Hid. cbn [db Tickets] in Ht. rewrite booked_rows in Ht.
  apply list_elem_of_fmap in Ht as (t1 & -> & _).
  destruct (decide (ticket_id t1 ∈ ticket_ids)) as [Hin|Hout].
  - split; reflexivity.
  - contradiction.
Qed.

(** *** What [getTickets] depends on *)

(** [getTickets] reads only, and its result depends on the set of
requested ids alone: repeating an id or reordering the request changes
nothing. *)
Theorem getTickets_set (ids ids' : list Id) (w : World) :
  (forall i, i ∈ ids <-> i ∈ ids') ->
  getTickets ids w = getTickets ids' w
  /\ world_after (getTickets ids w) = w.
Proof.
  intros Hset. split; [|reflexivity].
  unfold getTickets, select_Tickets_where_id_in.
  unfold mbind, M_bind, mret, M_ret, get_db. cbn beta iota.
  rewrite (list_filter_iff (λ r, ticket_id r ∈ ids) (λ r, ticket_id r ∈ ids'))
    by (intros r; apply Hset).
  reflexivity.
Qed.

(** How many of the leading elements of [types] are [c]. *)
Fixpoint run_of (c : Z) (types : list Z) : nat :=
  match types with
  | [] => 0
  | t :: rest => if decide (t = c) then S (run_of c rest) else 0
  end.

(** The quantity map, in full: it is empty for no record, and otherwise
holds one key, the type of the last record, counted as the length of the
run of records of that type that ends the list. *)
Theorem quantitiesByType_of_last_run (records : list TicketRow) :
  quantitiesByType_of records
  = match reverse (ticketTypeId <$> records) with
    | [] => ∅
    | c :: earlier => {[ c := N.of_nat (S (run_of c earlier)) ]}
    end.
Proof.
  induction records as [|r records IH] using rev_ind; [reflexivity|].
  rewrite quantitiesByType_of_snoc, fmap_app, reverse_app. cbn [fmap list_fmap reverse app].
  change (reverse [ticketTypeId r]) with [ticketTypeId r]. cbn [app].
  rewrite IH. unfold count_type.
  destruct (reverse (ticketTypeId <$> records)) as [|c earlier].
  - rewrite lookup_empty. reflexivity.
  - cbn [run_of]. destruct (decide (c = ticketTypeId r)) as [->|Hne].
    + rewrite lookup_singleton_eq. unfold default, from_option, Datatypes.id.
      f_equal. lia.
    + rewrite lookup_singleton_ne by exact Hne. reflexivity.
Qed.

End Processor.

(** ** Concrete runs *)

Section Runs.

Import Fixture.

(** Settles a decidable closed proposition by evaluating its decision
procedure. *)
Ltac by_evaluation := refine (bool_decide_unpack _ _); vm_compute; exact I.

(** C1 fails on the code.  The request [A, Z] names [Z], which resolves
to no ticket, and the request [D] names a ticket that is booked already:
[add] succeeds on both, stores a new order [P2], and in the second run
takes ticket [D] away from order [P1]. *)
Lemma add_accepts_unknown_and_booked :
  ("Z" ∉ ticket_id <$> Tickets (db shop))
  /\ outcome (add env clock accepting next_id ["A"; "Z"] shop)
     = Ok (mkPurchase "P2" "2019-11-02T00:00:00.002Z" unpaid
             (JsNumber.of_Z 100) "pref-1")
  /\ length (Purchases (db (world_after
               (add env clock accepting next_id ["A"; "Z"] shop)))) = 2%nat
  /\ ticket_D ∈ Tickets (db shop)
  /\ ticket_status ticket_D = booked
  /\ outcome (add env clock accepting next_id ["D"] shop)
     = Ok (mkPurchase "P2" "2019-11-02T00:00:00.002Z" unpaid
             (JsNumber.of_Z 100) "pref-1")
  /\ Tickets (db (world_after (add env clock accepting next_id ["D"] shop)))
     = [ticket_A; ticket_B; ticket_C;
        mkTicket "D" (JsNumber.of_Z 100) 1 booked (Some "P2")].
Proof.
  split.
  { rewrite list_elem_of_In. vm_compute. intuition discriminate. }
  split; [vm_compute; reflexivity|].
  split; [vm_compute; reflexivity|].
  split; [do 3 right; left|].
  repeat split; vm_compute; reflexivity.
Qed.

Lemma add_checks_nothing_witness :
  outcome (add env clock accepting next_id ["A"; "Z"] shop)
  = Ok (inserted clock next_id ["A"; "Z"] shop (mkPreference "pref-1"))
  /\ Purchases (db (world_after
                      (add env clock accepting next_id ["A"; "Z"] shop)))
     = (Purchases (db shop)
          ++ [inserted clock next_id ["A"; "Z"] shop (mkPreference "pref-1")])%list
  /\ Tickets (db (world_after
                    (add env clock accepting next_id ["A"; "Z"] shop)))
     = (λ t, if decide (ticket_id t ∈ ["A"; "Z"])
             then set_booked
                    (purchase_id
                       (inserted clock next_id ["A"; "Z"] shop
                          (mkPreference "pref-1"))) t
             else t) <$> Tickets (db shop).
Proof.
  exact (proj2 (proj2 (add_checks_nothing env clock accepting next_id
                         ["A"; "Z"] shop))
           (mkPreference "pref-1") eq_refl).
Defined.

(** C2 fails on the code.  Tickets [E] and [F] are available and cost
0.1 and 0.2: the order is billed 0.30000000000000004, the rounded double
sum, which is not the sum of the two prices. *)
Lemma add_amountBilled_rounds :
  NoDup ["E"; "F"]
  /\ resolved ["E"; "F"] kiosk = [ticket_E; ticket_F]
  /\ ticket_status ticket_E = available
  /\ ticket_status ticket_F = available
  /\ outcome (add env clock accepting next_id ["E"; "F"] kiosk)
     = Ok (mkPurchase "P1" "2019-11-02T00:00:00.002Z" unpaid
             (S754_finite false 5404319552844596 (-54)) "pref-1")
  /\ JsNumber.is_exact_sum (S754_finite false 5404319552844596 (-54))
       [price ticket_E; price ticket_F] = false
  /\ S754_finite false 5404319552844596 (-54) <> JsNumber.lit_0_3.
Proof.
  split; [by_evaluation|].
  repeat split; try (vm_compute; reflexivity). discriminate.
Qed.

Lemma add_amountBilled_witness :
  exists order,
    outcome (add env clock accepting next_id ["A"; "B"] shop) = Ok order
    /\ order ∈ Purchases (db (world_after
                               (add env clock accepting next_id ["A"; "B"] shop)))
    /\ status order = unpaid
    /\ amountBilled order
       = fold_left JsNumber.add (price <$> resolved ["A"; "B"] shop)
           JsNumber.zero
    /\ forall amount : Id -> Z,
        (forall t, t ∈ Tickets (db shop) -> ticket_id t ∈ ["A"; "B"] ->
                   price t = JsNumber.of_Z (amount (ticket_id t))
                   /\ 0 <= amount (ticket_id t)) ->
        JsNumber.sum_Z (amount <$> ["A"; "B"]) < 2 ^ 53 ->
        amountBilled order
        = JsNumber.of_Z (JsNumber.sum_Z (amount <$> ["A"; "B"]))
        /\ JsNumber.is_exact_sum (amountBilled order)
             (price <$> resolved ["A"; "B"] shop) = true.
Proof.
  apply (add_amountBilled env clock accepting next_id ["A"; "B"] shop
           (mkPreference "pref-1")).
  - discriminate.
  - by_evaluation.
  - by_evaluation.
  - intros i Hi. apply list_elem_of_In in Hi. simpl in Hi.
    destruct Hi as [<-|[<-|[]]].
    + exists ticket_A. split; [left|split; reflexivity].
    + exists ticket_B. split; [right; left|split; reflexivity].
  - reflexivity.
Defined.

(** C3 fails on the code.  Tickets [A] and [C] have types 1 and 2: the
quantity map [getTickets] returns for them holds type 2 alone, so type 1
has no count although one ticket of it is selected, and the counts sum
to 1 for 2 selected tickets. *)
Theorem quantitiesByType_mixed_types :
  outcome (getTickets ["A"; "C"] shop)
  = Ok (JsNumber.of_Z 250, [ticket_A; ticket_C], {[ 2 := 1%N ]})
  /\ quantitiesByType_of [ticket_A; ticket_C] !! 1 = None
  /\ map_fold (λ _ n total, (n + total)%N) 0%N
       (quantitiesByType_of [ticket_A; ticket_C]) = 1%N
  /\ length [ticket_A; ticket_C] = 2%nat.
Proof. repeat split; vm_compute; reflexivity. Qed.

(** C4 fails on the code.  Tickets [A] and [B] share type 1, the one
category selected, yet the request has two line items, not one; each
carries the quantity 2 and the title of a pair at the unit price 100, so
the gateway is asked for two pairs while the order is billed 200 for two
tickets. *)
Lemma line_items_two_for_one_category :
  ticketTypeId ticket_A = ticketTypeId ticket_B
  /\ resolved ["A"; "B"] shop = [ticket_A; ticket_B]
  /\ items (submitted env clock ["A"; "B"] shop)
     = [ {| item_id := "WEBCONF-TICKET-2";
            title := "Par de Entradas para Córdoba WebConf 2019";
            quantity := Some 2%N;
            currency_id := "ARS";
            unit_price := JsNumber.of_Z 100;
            picture_url := Some "https://webconf.tech/ticket.png";
            category_id := "tickets" |};
         {| item_id := "WEBCONF-TICKET-2";
            title := "Par de Entradas para Córdoba WebConf 2019";
            quantity := Some 2%N;
            currency_id := "ARS";
            unit_price := JsNumber.of_Z 100;
            picture_url := Some "https://webconf.tech/ticket.png";
            category_id := "tickets" |} ]
  /\ outcome (add env clock accepting next_id ["A"; "B"] shop)
     = Ok (mkPurchase "P2" "2019-11-02T00:00:00.002Z" unpaid
             (JsNumber.of_Z 200) "pref-1").
Proof. repeat split; vm_compute; reflexivity. Qed.

Lemma line_item_per_ticket_witness :
  exists item,
    items (preferenceConfiguration_of env [ticket_A; ticket_B]
             {[ 1 := 2%N ]} 1577836800000 1572652800001) !! 0%nat
    = Some item
    /\ quantity item = ({[ 1 := 2%N ]} : gmap Z N) !! ticketTypeId ticket_A
    /\ title item
       = default "undefined"
           (match quantity item with
            | Some 1%N => Some "Entrada"
            | Some 2%N => Some "Par de Entradas"
            | Some 3%N => Some "Trío de Entradas"
            | _ => None
            end) ++ " para Córdoba WebConf 2019"
    /\ unit_price item
       = match USE_FAKE_PAYMENTS env with
         | Some (String _ _) => JsNumber.of_Z 2
         | _ => price ticket_A
         end.
Proof.
  exact (proj2 (line_item_per_ticket env [ticket_A; ticket_B] {[ 1 := 2%N ]}
                  1577836800000 1572652800001)
           0%nat ticket_A eq_refl).
Defined.

Lemma markAsPaid_idempotent_monotonic_witness :
  order_P1 ∈ Purchases (db (perform env clock accepting next_id
                              (OpAdd ["A"]) shop))
  \/ OpAdd ["A"] = OpRemoveById (purchase_id order_P1).
Proof.
  apply (proj2 (markAsPaid_idempotent_monotonic env clock accepting next_id)
           (OpAdd ["A"]) shop order_P1).
  - left.
  - reflexivity.
Defined.

(** C6 fails on the code.  [removeById] is public and deletes: called on
the id of the paid order [P1] it succeeds and the order is gone. *)
Lemma removeById_deletes_order :
  order_P1 ∈ Purchases (db shop)
  /\ status order_P1 = paid
  /\ outcome (removeById "P1" shop) = Ok tt
  /\ Purchases (db (world_after (removeById "P1" shop))) = [].
Proof.
  split; [left|]. repeat split; vm_compute; reflexivity.
Qed.

Lemma delete_denied_removeById_deletes_witness :
  purchase_id order_P1
  ∈ purchase_id <$> Purchases (db (perform env clock accepting next_id
                                     (OpMarkAsPaid "P1") shop)).
Proof.
  apply (proj2 (proj2 (delete_denied_removeById_deletes
                         env clock accepting next_id))
           (OpMarkAsPaid "P1") shop order_P1).
  - left.
  - discriminate.
Defined.


Lemma add_gateway_failure_clean_witness :
  outcome (add env clock rejecting next_id ["A"; "B"] shop)
  = Throw GatewayError
  /\ db (world_after (add env clock rejecting next_id ["A"; "B"] shop))
     = db shop.
Proof.
  apply (add_gateway_failure_clean env clock rejecting next_id
           ["A"; "B"] shop).
  reflexivity.
Defined.

(** C8 fails on the code.  A preference built at 2019-11-02T00:00:00Z
expires on 2020-01-01, sixty days later, and not on 2019-11-03:
[TOMORROW] adds [60 * 60 * 60 * 24 * 1000] milliseconds, sixty times the
length of a day. *)
Theorem expiration_sixty_days_later :
  clock 0 = 1572652800000
  /\ JsDate.toJSON (clock 0) = "2019-11-02T00:00:00.000Z"
  /\ expiration_date_from (submitted env clock ["A"] shop)
     = "2019-11-02T00:00:00.001-03:00"
  /\ expiration_date_to (submitted env clock ["A"] shop)
     = "2020-01-01T00:00:00.000-03:00"
  /\ expiration (clock 0 + 24 * 60 * 60 * 1000)
     = "2019-11-03T00:00:00.000-03:00"
  /\ TOMORROW_of (clock 0) - clock 0 = 60 * (24 * 60 * 60 * 1000).
Proof. repeat split; vm_compute; reflexivity. Qed.

(** C9 fails on the code.  No order has the id [P9]: [getById] fails
with a [TypeError], which is not [NotFound]. *)
Lemma getById_missing_TypeError :
  ("P9" ∉ purchase_id <$> Purchases (db shop))
  /\ outcome (getById "P9" shop) = Throw TypeError
  /\ outcome (getById "P9" shop) <> Throw NotFound.
Proof.
  split.
  { rewrite list_elem_of_In. vm_compute. intuition discriminate. }
  split; [vm_compute; reflexivity|]. vm_compute. discriminate.
Qed.

Lemma getById_fetch_witness :
  exists row,
    row ∈ Purchases (db shop) /\ purchase_id row = "P1"
    /\ outcome (getById "P1" shop)
       = Ok {| id := "P1"; type := "purchase";
               attributes := without_id row; relationships := [] |}.
Proof.
  apply (proj1 (proj2 (getById_fetch "P1" shop))).
  exists order_P1. split; [left | reflexivity].
Defined.

Lemma markAsPaid_unknown_id_witness :
  markAsPaid "P9" shop = (Ok tt, shop).
Proof.
  apply (markAsPaid_unknown_id "P9" shop).
  intros r Hr. apply list_elem_of_In in Hr. simpl in Hr.
  destruct Hr as [<-|[]]. discriminate.
Defined.

End Runs.

(** ** Payer data

[getPayerData] reads the [Customers] table, which no method of the
processor writes: the table is a parameter here. *)

(** A row of [Customers]; every column but the id may be null. *)
Record CustomerRow := mkCustomer {
  customer_id : Id;
  emailAddress : option string;
  identificationType : option string;
  identificationNumber : option string;
  fullName : option string
}.

(** [MPPayerData]. *)
Record MPPayerData := mkPayer {
  email : option string;
  identification_type : string;
  identification_number : option string;
  first_name : option string;
  last_name : string
}.

Section Payer.

Variable Customers : list CustomerRow.

(** [knex("Customers").select().where("id", id)] *)
Definition select_Customers_where_id (i : Id) : M (list CustomerRow) :=
  mret (filter (λ r, customer_id r = i) Customers).

Definition getPayerData (customer : Id) : M MPPayerData :=
  rows ← select_Customers_where_id customer;
  match head rows with
  | None => throw TypeError
  | Some data =>
      match fullName data with
      | None => throw TypeError
      | Some name =>
          mret {| email := emailAddress data;
                  identification_type :=
                    if JsString.truthy (identificationType data)
                    then JsString.template (identificationType data)
                    else "DNI";
                  identification_number := identificationNumber data;
                  first_name := head (JsString.split " " name);
                  last_name :=
                    JsString.join " " (drop 1 (JsString.split " " name)) |}
      end
  end.

(** [getPayerData] never writes.  It fails, with a [TypeError], exactly
when no customer of the given id is stored or the first one stored has no
full name. *)
Theorem getPayerData_failure (customer : Id) (w : World) :
  world_after (getPayerData customer w) = w
  /\ (outcome (getPayerData customer w) = Throw TypeError
      <-> (forall r, r ∈ Customers -> customer_id r <> customer)
          \/ exists data,
               head (filter (λ r, customer_id r = customer) Customers)
               = Some data /\ fullName data = None)
  /\ (outcome (getPayerData customer w) <> Throw TypeError ->
      exists payer, outcome (getPayerData customer w) = Ok payer).
Proof.
  unfold getPayerData, select_Customers_where_id.
  unfold mbind, M_bind, mret, M_ret, throw. cbn beta iota.
  destruct (head (filter _ Customers)) as [data|] eqn:E.
  - destruct (fullName data) as [name|] eqn:Hname; cbn [outcome world_after fst snd].
    + split; [reflexivity|]. split; [|intros _; eexists; reflexivity].
      split; [discriminate|]. intros [Hnone|(data' & [= <-] & Hnull)].
      * apply head_Some_elem_of, list_elem_of_filter in E as [Hid Hin].
        destruct (Hnone data Hin Hid).
      * congruence.
    + split; [reflexivity|]. split; [|intros H; destruct (H eq_refl)].
      split; [|reflexivity]. intros _. right. exists data. split; [reflexivity | exact Hname].
  - cbn [outcome world_after fst snd]. split; [reflexivity|].
    split; [|intros H; destruct (H eq_refl)].
    split; [|reflexivity]. intros _. left. intros r Hr Hid.
    apply head_None in E.
    assert (Hin : r ∈ filter (λ r, customer_id r = customer) Customers)
      by (apply list_elem_of_filter; split; assumption).
    rewrite E in Hin. inversion Hin.
Qed.

(** The payer's names are the customer's full name cut at its first
space: the first name holds no space, and the full name is the first
name alone, with an empty last name, or the first name, one space and
the last name. *)
Theorem getPayerData_names (customer : Id) (w : World) (payer : MPPayerData) :
  outcome (getPayerData customer w) = Ok payer ->
  exists data name first,
    head (filter (λ r, customer_id r = customer) Customers) = Some data
    /\ fullName data = Some name
    /\ first_name payer = Some first
    /\ JsString.includes " " first = false
    /\ (name = first /\ last_name payer = ""
        \/ name = first ++ " " ++ last_name payer).
Proof.
  unfold getPayerData, select_Customers_where_id.
  unfold mbind, M_bind, mret, M_ret, throw. cbn beta iota.
  destruct (head (filter _ Customers)) as [data|]; [|discriminate].
  destruct (fullName data) as [name|] eqn:Hname; [|discriminate].
  cbn [outcome fst]. intros [= <-]. cbn [first_name last_name].
  pose proof (join_split " " name) as Hjoin.
  destruct (split_cons " " name) as (first & rest & E & Hfirst).
  rewrite E in *. exists data, name, first.
  split; [reflexivity|]. split; [exact Hname|]. split; [reflexivity|].
  split; [exact Hfirst|]. cbn [drop head].
  unfold JsString.join in *. destruct rest as [|second rest].
  - left. split; [symmetry; exact Hjoin | reflexivity].
  - right. rewrite concat_cons in Hjoin by discriminate.
    symmetry. exact Hjoin.
Qed.

(** The identification type defaults to ["DNI"]: the payer carries the
customer's own type when it is a non-empty string, and ["DNI"] when it is
null or empty.  Email and identification number are copied as they
are. *)
Theorem getPayerData_identification (customer : Id) (w : World)
    (payer : MPPayerData) :
  outcome (getPayerData customer w) = Ok payer ->
  exists data,
    head (filter (λ r, customer_id r = customer) Customers) = Some data
    /\ email payer = emailAddress data
    /\ identification_number payer = identificationNumber data
    /\ identification_type payer
       = match identificationType data with
         | Some (String c s) => String c s
         | _ => "DNI"
         end.
Proof.
  unfold getPayerData, select_Customers_where_id.
  unfold mbind, M_bind, mret, M_ret, throw. cbn beta iota.
  destruct (head (filter _ Customers)) as [data|]; [|discriminate].
  destruct (fullName data) as [name|]; [|discriminate].
  cbn [outcome fst]. intros [= <-]. exists data.
  cbn [email identification_number identification_type].
  repeat split. destruct (identificationType data) as [[|c s]|]; reflexivity.
Qed.

End Payer.

(** ** More concrete runs *)

Module Registry.

Definition ada : CustomerRow :=
  mkCustomer "c1" (Some "ada@example.org") None (Some "30111222")
    (Some "Ada King Lovelace").

Definition customers : list CustomerRow := [ada].

Definition ada_payer : MPPayerData :=
  {| email := Some "ada@example.org";
     identification_type := "DNI";
     identification_number := Some "30111222";
     first_name := Some "Ada";
     last_name := "King Lovelace" |}.

(** The shop's environment with the sandbox flag set. *)
Definition sandbox_env : Env :=
  {| WEBCONF_CHECKOUT_URL := Some "https://checkout.webconf.tech";
     MP_BACK_URL_SUCCESS := Some "success";
     MP_BACK_URL_PENDING := Some "pending";
     MP_BACK_URL_FAILURE := Some "failure";
     USE_FAKE_PAYMENTS := Some "1";
     MP_TICKET_PICTURE_URL := Some "https://webconf.tech/ticket.png";
     MP_EXCLUDED_PAYMENT_TYPES := None |}.

End Registry.

Section MoreRuns.

Import Fixture Registry.

Lemma external_reference_decodes_witness :
  JsString.split "|"
    (external_reference
       (preferenceConfiguration_of env [ticket_A; ticket_B] {[ 1 := 2%N ]}
          1577836800000 1572652800001))
  = ticket_id <$> [ticket_A; ticket_B].
Proof.
  apply (external_reference_decodes env [ticket_A; ticket_B] {[ 1 := 2%N ]}
           1577836800000 1572652800001).
  - discriminate.
  - repeat constructor.
Defined.

Lemma one_type_quantities_witness :
  let n := length (resolved ["A"; "B"] shop) in
  length (items (submitted env clock ["A"; "B"] shop)) = n
  /\ Forall (λ item, quantity item = Some (N.of_nat n))
       (items (submitted env clock ["A"; "B"] shop)).
Proof.
  apply (one_type_quantities env clock ["A"; "B"] shop 1).
  - vm_compute. discriminate.
  - vm_compute. repeat constructor.
Defined.

Lemma add_nothing_resolved_witness :
  items (submitted env clock ["Z"] shop) = []
  /\ external_reference (submitted env clock ["Z"] shop) = ""
  /\ forall preference,
      accepting (submitted env clock ["Z"] shop) = Some preference ->
      exists order,
        outcome (add env clock accepting next_id ["Z"] shop) = Ok order
        /\ amountBilled order = JsNumber.zero
        /\ Purchases (db (world_after
                            (add env clock accepting next_id ["Z"] shop)))
           = (Purchases (db shop) ++ [order])%list
        /\ Tickets (db (world_after
                          (add env clock accepting next_id ["Z"] shop)))
           = Tickets (db shop).
Proof.
  apply (add_nothing_resolved env clock accepting next_id ["Z"] shop).
  intros t Ht Hin. apply list_elem_of_In in Ht, Hin.
  vm_compute in Ht, Hin. intuition (subst; discriminate).
Defined.

Lemma order_fields_kept_witness :
  OpMarkAsPaid "P1" = OpRemoveById (purchase_id order_P1)
  \/ exists r',
       r' ∈ Purchases (db (perform env clock accepting next_id
                             (OpMarkAsPaid "P1") shop))
       /\ purchase_id r' = purchase_id order_P1
       /\ dateCreated r' = dateCreated order_P1
       /\ amountBilled r' = amountBilled order_P1
       /\ externalId r' = externalId order_P1
       /\ (status r' = status order_P1 \/ status r' = paid).
Proof.
  apply (order_fields_kept env clock accepting next_id
           (OpMarkAsPaid "P1") shop order_P1).
  left.
Defined.

Lemma removeById_leaves_tickets_booked_witness :
  (exists t', t' ∈ Tickets (db (world_after (removeById "P1" shop)))
              /\ ticket_id t' = ticket_id ticket_D
              /\ ticket_status t' = ticket_status ticket_D
              /\ purchaseId t' = Some "P1")
  /\ (forall r, r ∈ Purchases (db (world_after (removeById "P1" shop))) ->
                purchase_id r <> "P1").
Proof.
  apply (removeById_leaves_tickets_booked "P1" shop ticket_D).
  - do 3 right. left.
  - reflexivity.
Defined.

Lemma add_then_getById_witness :
  exists order,
    outcome (add env clock accepting next_id ["A"] shop) = Ok order
    /\ outcome (getById (purchase_id order)
                  (world_after (add env clock accepting next_id ["A"] shop)))
       = Ok {| id := purchase_id order; type := "purchase";
               attributes :=
                 {| attr_dateCreated := dateCreated order;
                    attr_status := unpaid;
                    attr_amountBilled := amountBilled order;
                    attr_externalId := preference_id (mkPreference "pref-1") |};
               relationships := [] |}.
Proof.
  apply (add_then_getById env clock accepting next_id ["A"] shop
           (mkPreference "pref-1")).
  - rewrite list_elem_of_In. vm_compute. intuition discriminate.
  - reflexivity.
Defined.

Lemma add_markAsPaid_getById_witness :
  exists order,
    outcome (add env clock accepting next_id ["A"] shop) = Ok order
    /\ outcome
         (getById (purchase_id order)
            (world_after
               (markAsPaid (purchase_id order)
                  (world_after
                     (add env clock accepting next_id ["A"] shop)))))
       = Ok {| id := purchase_id order; type := "purchase";
               attributes :=
                 {| attr_dateCreated := dateCreated order;
                    attr_status := paid;
                    attr_amountBilled := amountBilled order;
                    attr_externalId := externalId order |};
               relationships := [] |}.
Proof.
  apply (add_markAsPaid_getById env clock accepting next_id ["A"] shop
           (mkPreference "pref-1")).
  - rewrite list_elem_of_In. vm_compute. intuition discriminate.
  - reflexivity.
Defined.

Lemma getById_returns_stored_witness :
  id {| id := "P1"; type := "purchase";
        attributes := without_id order_P1; relationships := [] |} = "P1"
  /\ type {| id := "P1"; type := "purchase";
             attributes := without_id order_P1; relationships := [] |}
     = "purchase"
  /\ relationships {| id := "P1"; type := "purchase";
                      attributes := without_id order_P1;
                      relationships := [] |} = []
  /\ row_of (id {| id := "P1"; type := "purchase";
                   attributes := without_id order_P1; relationships := [] |})
       (attributes {| id := "P1"; type := "purchase";
                      attributes := without_id order_P1;
                      relationships := [] |})
     ∈ Purchases (db shop).
Proof.
  apply (getById_returns_stored "P1" shop).
  reflexivity.
Defined.

Lemma add_twice_rebinds_witness :
  exists order1 order2,
    outcome (add env clock accepting next_id ["A"; "B"] shop) = Ok order1
    /\ outcome (add env clock accepting next_id ["A"; "B"]
                  (world_after
                     (add env clock accepting next_id ["A"; "B"] shop)))
       = Ok order2
    /\ Purchases
         (db (world_after
                (add env clock accepting next_id ["A"; "B"]
                   (world_after
                      (add env clock accepting next_id ["A"; "B"] shop)))))
       = (Purchases (db shop) ++ [order1; order2])%list
    /\ amountBilled order2 = amountBilled order1
    /\ forall t,
        t ∈ Tickets
              (db (world_after
                     (add env clock accepting next_id ["A"; "B"]
                        (world_after
                           (add env clock accepting next_id ["A"; "B"]
                              shop))))) ->
        ticket_id t ∈ ["A"; "B"] ->
        ticket_status t = booked /\ purchaseId t = Some (purchase_id order2).
Proof.
  apply (add_twice_rebinds env clock accepting next_id ["A"; "B"] shop
           (mkPreference "pref-1") (mkPreference "pref-1"));
    reflexivity.
Defined.


Lemma fake_payments_request_only_witness :
  Forall (λ item, unit_price item = JsNumber.of_Z 2)
    (items (submitted sandbox_env clock ["A"; "C"] shop))
  /\ exists order,
       outcome (add sandbox_env clock accepting next_id ["A"; "C"] shop)
       = Ok order
       /\ amountBilled order
          = fold_left JsNumber.add (price <$> resolved ["A"; "C"] shop)
              JsNumber.zero.
Proof.
  apply (fake_payments_request_only sandbox_env clock accepting next_id
           ["A"; "C"] shop (mkPreference "pref-1"));
    reflexivity.
Defined.


Lemma getTickets_set_witness :
  getTickets ["A"; "B"] shop = getTickets ["B"; "A"; "A"] shop
  /\ world_after (getTickets ["A"; "B"] shop) = shop.
Proof.
  apply (getTickets_set ["A"; "B"] ["B"; "A"; "A"] shop).
  intros i. rewrite !elem_of_cons, !elem_of_nil. tauto.
Defined.

Lemma expiration_format_witness :
  let '(y, m, d) := JsDate.civil (1572652800000 / JsDate.msPerDay) in
  let ms := 1572652800000 mod JsDate.msPerDay in
  expiration 1572652800000
  = JsDate.pad4 y ++ "-" ++ JsDate.pad2 m ++ "-" ++ JsDate.pad2 d ++ "T"
      ++ JsDate.pad2 (ms / 3600000) ++ ":" ++ JsDate.pad2 (ms / 60000 mod 60)
      ++ ":" ++ JsDate.pad2 (ms / 1000 mod 60) ++ "."
      ++ JsDate.pad3 (ms mod 1000) ++ "-03:00"
  /\ String.length (expiration 1572652800000) = 29%nat.
Proof.
  apply (expiration_format 1572652800000). lia.
Defined.

Lemma getPayerData_names_witness :
  exists data name first,
    head (filter (λ r, customer_id r = "c1") customers) = Some data
    /\ fullName data = Some name
    /\ first_name ada_payer = Some first
    /\ JsString.includes " " first = false
    /\ (name = first /\ last_name ada_payer = ""
        \/ name = first ++ " " ++ last_name ada_payer).
Proof.
  apply (getPayerData_names customers "c1" shop ada_payer).
  reflexivity.
Defined.

Lemma getPayerData_identification_witness :
  exists data,
    head (filter (λ r, customer_id r = "c1") customers) = Some data
    /\ email ada_payer = emailAddress data
    /\ identification_number ada_payer = identificationNumber data
    /\ identification_type ada_payer
       = match identificationType data with
         | Some (String c s) => String c s
         | _ => "DNI"
         end.
Proof.
  apply (getPayerData_identification customers "c1" shop ada_payer).
  reflexivity.
Defined.

End MoreRuns.
